(** * pyArango/document.py: Document and Edge, a shallow embedding

    The module maps remote JSON documents of a document-graph database to
    local objects.  A [Document] carries a full field store, a store of the
    fields changed since it was persisted, the server-side identity
    ([_id], [_rev], [_key], [URL]) and a [modified] flag; an [Edge] is a
    [Document] with two endpoint references.

    Python objects are mutable: every method is embedded as a computation
    in a state-and-exception monad whose state holds the receiver ([self])
    and the log of the HTTP requests issued so far.  The server is a
    function from the request history and the current request to a
    response; all statements quantify over it.  The collection is a
    collaborator of which the module uses two URLs and names, the
    validation switches and two validators; all statements quantify over it
    too.

    The order in which a dictionary lists its keys is left open by the
    language: it is a parameter of the methods ([KeyOrder]), and every
    statement holds for every order.

    What the embedding takes for granted: field values are JSON scalars;
    the body of every response is a JSON object, so that [r.json()] returns
    a dictionary; the validators of the collection read their arguments and
    either return or raise, without touching the document. *)

From Stdlib Require Import ZArith Bool List.
From stdpp Require Import base gmap strings list fin_maps pretty.

Local Open Scope Z_scope.
Local Open Scope string_scope.

(** ** Values, dictionaries, exceptions *)

(** JSON scalars as Python sees them. *)
Inductive value : Type :=
| VNone
| VBool (b : bool)
| VInt (n : Z)
| VStr (s : string).

#[global] Instance value_eq_dec : EqDecision value.
Proof. solve_decision. Defined.

Abbreviation dict := (gmap string value).

(** Python truth value, as used by [not data['error']]. *)
Definition truthy (v : value) : bool :=
  match v with
  | VNone => false
  | VBool b => b
  | VInt n => negb (Z.eqb n 0)
  | VStr s => negb (String.eqb s "")
  end.

(** [str(v)], what the [%s] conversion prints. *)
Definition py_str (v : value) : string :=
  match v with
  | VNone => "None"
  | VBool true => "True"
  | VBool false => "False"
  | VInt n => pretty n
  | VStr s => s
  end.

(** Exceptions.  [NoAttribute v a] stands for the [AttributeError] that
    the interpreter raises when the attribute [a] is looked up on the plain
    value [v], a value of a built-in type that has no such attribute. *)
Inductive exn : Type :=
| KeyError (k : string)
| NameError (name : string)
| TypeError (msg : string)
| ValueError (msg : string)
| AttributeError (msg : string)
| NoAttribute (v : value) (attr : string)
| CreationError (msg : value) (data : dict)
| UpdateError (msg : value) (data : dict)
| DeletionError (msg : value) (data : option dict)
| ValidationError (msg : string)
| SchemaViolation (msg : string)
| ConstraintViolation (msg : string)
| DanglingReference.

Inductive result (A : Type) : Type :=
| Ok (a : A)
| Raise (e : exn).
Arguments Ok {A} a.
Arguments Raise {A} e.

(** ** The collection, an external collaborator *)

Record Validation : Type := {
  on_set : bool;
  on_save : bool;
  allow_foreign_fields : bool
}.

(** A validator returns normally ([None]) or raises ([Some e]). *)
Record Collection : Type := {
  col_name : string;
  col_documentsURL : string;
  _validation : Validation;
  validateField : string -> value -> option exn;
  _validateDct : dict -> option exn
}.

(** ** Objects *)

Inductive pyclass : Type := Document | Edge.

#[global] Instance pyclass_eq_dec : EqDecision pyclass.
Proof. solve_decision. Defined.

Record Doc : Type := {
  cls : pyclass;
  collection : Collection;
  documentsURL : string;
  _store : dict;
  _patchStore : dict;
  _id : value;
  _rev : value;
  _key : value;
  URL : option string;
  modified : bool;
  _from : value;
  _to : value
}.

Definition with_collection (c : Collection) (d : Doc) : Doc :=
  {| cls := cls d; collection := c; documentsURL := documentsURL d;
     _store := _store d; _patchStore := _patchStore d;
     _id := _id d; _rev := _rev d; _key := _key d; URL := URL d;
     modified := modified d; _from := _from d; _to := _to d |}.

Definition with_documentsURL (u : string) (d : Doc) : Doc :=
  {| cls := cls d; collection := collection d; documentsURL := u;
     _store := _store d; _patchStore := _patchStore d;
     _id := _id d; _rev := _rev d; _key := _key d; URL := URL d;
     modified := modified d; _from := _from d; _to := _to d |}.

Definition with_store (s : dict) (d : Doc) : Doc :=
  {| cls := cls d; collection := collection d; documentsURL := documentsURL d;
     _store := s; _patchStore := _patchStore d;
     _id := _id d; _rev := _rev d; _key := _key d; URL := URL d;
     modified := modified d; _from := _from d; _to := _to d |}.

Definition with_patchStore (s : dict) (d : Doc) : Doc :=
  {| cls := cls d; collection := collection d; documentsURL := documentsURL d;
     _store := _store d; _patchStore := s;
     _id := _id d; _rev := _rev d; _key := _key d; URL := URL d;
     modified := modified d; _from := _from d; _to := _to d |}.

Definition with_id (v : value) (d : Doc) : Doc :=
  {| cls := cls d; collection := collection d; documentsURL := documentsURL d;
     _store := _store d; _patchStore := _patchStore d;
     _id := v; _rev := _rev d; _key := _key d; URL := URL d;
     modified := modified d; _from := _from d; _to := _to d |}.

Definition with_rev (v : value) (d : Doc) : Doc :=
  {| cls := cls d; collection := collection d; documentsURL := documentsURL d;
     _store := _store d; _patchStore := _patchStore d;
     _id := _id d; _rev := v; _key := _key d; URL := URL d;
     modified := modified d; _from := _from d; _to := _to d |}.

Definition with_key (v : value) (d : Doc) : Doc :=
  {| cls := cls d; collection := collection d; documentsURL := documentsURL d;
     _store := _store d; _patchStore := _patchStore d;
     _id := _id d; _rev := _rev d; _key := v; URL := URL d;
     modified := modified d; _from := _from d; _to := _to d |}.

Definition with_URL (u : option string) (d : Doc) : Doc :=
  {| cls := cls d; collection := collection d; documentsURL := documentsURL d;
     _store := _store d; _patchStore := _patchStore d;
     _id := _id d; _rev := _rev d; _key := _key d; URL := u;
     modified := modified d; _from := _from d; _to := _to d |}.

Definition with_modified (b : bool) (d : Doc) : Doc :=
  {| cls := cls d; collection := collection d; documentsURL := documentsURL d;
     _store := _store d; _patchStore := _patchStore d;
     _id := _id d; _rev := _rev d; _key := _key d; URL := URL d;
     modified := b; _from := _from d; _to := _to d |}.

Definition with_from (v : value) (d : Doc) : Doc :=
  {| cls := cls d; collection := collection d; documentsURL := documentsURL d;
     _store := _store d; _patchStore := _patchStore d;
     _id := _id d; _rev := _rev d; _key := _key d; URL := URL d;
     modified := modified d; _from := v; _to := _to d |}.

Definition with_to (v : value) (d : Doc) : Doc :=
  {| cls := cls d; collection := collection d; documentsURL := documentsURL d;
     _store := _store d; _patchStore := _patchStore d;
     _id := _id d; _rev := _rev d; _key := _key d; URL := URL d;
     modified := modified d; _from := _from d; _to := v |}.

(** ** HTTP *)

Inductive Method : Type := POST | PUT | PATCH | DELETE.

Record Request : Type := {
  meth : Method;
  url : string;
  params : option dict;
  data : option dict
}.

(** The body of a response is a JSON object; [r.json()] returns it. *)
Record Response : Type := {
  status_code : Z;
  json : dict
}.

(** ** The monad: receiver, request log, exceptions *)

Record St : Type := {
  self : Doc;
  sent : list Request
}.

Definition M (A : Type) : Type := St -> result A * St.

Definition ret {A} (a : A) : M A := fun st => (Ok a, st).

Definition bind {A B} (m : M A) (f : A -> M B) : M B :=
  fun st =>
    match m st with
    | (Ok a, st') => f a st'
    | (Raise e, st') => (Raise e, st')
    end.

Definition raise {A} (e : exn) : M A := fun st => (Raise e, st).

Definition get : M Doc := fun st => (Ok (self st), st).

Definition upd (f : Doc -> Doc) : M unit :=
  fun st => (Ok tt, {| self := f (self st); sent := sent st |}).

Declare Scope py_scope.
Delimit Scope py_scope with py.
Notation "x <- c1 ;; c2" := (bind c1 (fun x => c2))
  (at level 100, c1 at next level, right associativity) : py_scope.
Notation "c1 ;; c2" := (bind c1 (fun _ => c2))
  (at level 100, right associativity) : py_scope.
Local Open Scope py_scope.

(** [d[k]] on a dictionary. *)
Definition getitem (d : dict) (k : string) : M value :=
  match d !! k with
  | Some v => ret v
  | None => raise (KeyError k)
  end.

(** Calling a collaborator that either returns or raises. *)
Definition call (r : option exn) : M unit :=
  match r with
  | None => ret tt
  | Some e => raise e
  end.

(** [for x in l: body(x)] *)
Fixpoint for_each {A} (l : list A) (body : A -> M unit) : M unit :=
  match l with
  | [] => ret tt
  | x :: l' => body x ;; for_each l' body
  end.

(** Binding of keyword arguments against the names a function declares:
    a keyword the function does not declare is a [TypeError]. *)
Fixpoint unexpected_keyword (declared : list string) (kwargs : list (string * value))
  : option string :=
  match kwargs with
  | [] => None
  | (k, _) :: rest =>
      if bool_decide (k ∈ declared) then unexpected_keyword declared rest
      else Some k
  end.

Fixpoint kwarg (k : string) (default : value) (kwargs : list (string * value)) : value :=
  match kwargs with
  | [] => default
  | (k', v) :: rest => if String.eqb k k' then v else kwarg k default rest
  end.

Definition unexpected_keyword_msg (f k : string) : string :=
  f +:+ "() got an unexpected keyword argument '" +:+ k +:+ "'".

(** ** The order of a dictionary's keys

    [d.keys()] lists every key of [d] once, in an order that the language
    leaves open.  The methods that walk through a dictionary take the order
    as it is given to them. *)
Class KeyOrder : Type := {
  keys : dict -> list string;
  keys_lists : forall m : dict, keys m ≡ₚ (map_to_list m).*1
}.

(** One such order. *)
#[global] Instance default_order : KeyOrder :=
  {| keys := fun m => (map_to_list m).*1;
     keys_lists := fun m => reflexivity _ |}.

(** ** Module-level names

    The names bound at module level: the two imported modules, the six
    exception classes imported from [theExceptions], and the two classes
    the module defines.  A name that is looked up and is not among them
    raises [NameError]. *)
Definition module_globals : list string :=
  ["requests"; "json";
   "CreationError"; "DeletionError"; "UpdateError";
   "ConstraintViolation"; "SchemaViolation"; "ValidationError";
   "Document"; "Edge"].

Definition lookup_global (globals : list string) (name : string) : M unit :=
  if bool_decide (name ∈ globals) then ret tt
  else raise (NameError name).

(** ** Messages *)

Definition msg_patch_unsaved : string :=
  "Cannot patch a document that was not previously saved".
Definition msg_delete_unsaved : string :=
  "Can't delete a document that was not saved".
Definition msg_edge_already_saved : string :=
  "It appears that the edge has already been saved. You can now use save() and patch()".
Definition msg_edge_first_save : string :=
  "The first time you save an Edge you must specify the 'from' and 'to' vertices".
Definition msg_fromVertice : string :=
  "fromVertice must be either a Document or a String".
Definition msg_toVertice : string :=
  "toVertice must be either a Document or a String".

(** What a caller may pass as an endpoint of an edge: a plain value
    ([None], a string, ...) or an object, given by its state at the call. *)
Inductive vertex : Type :=
| VtxVal (v : value)
| VtxObj (o : Doc).

Definition vertex_is_None (x : vertex) : bool :=
  match x with
  | VtxVal VNone => true
  | _ => false
  end.

(** ** Methods of Document and Edge *)

Section Methods.

(** The order in which dictionaries list their keys. *)
Context {order : KeyOrder}.

(** The server: the response to a request, given the requests before it. *)
Variable server : list Request -> Request -> Response.

Definition http (req : Request) : M Response :=
  fun st => (Ok (server (sent st) req),
             {| self := self st; sent := sent st ++ [req] |}).

(** *** setPrivates *)

Definition clear_privates (d : Doc) : Doc :=
  with_URL None (with_key VNone (with_rev VNone (with_id VNone d))).

(** [Document.setPrivates]: the dictionary after the call and the
    receiver after the call.  The [KeyError] of a missing key is caught
    inside, after the deletions made so far. *)
Definition Document_setPrivates (fieldDict : dict) (d : Doc) : dict * Doc :=
  match fieldDict !! "_id" with
  | None => (fieldDict, clear_privates d)
  | Some i =>
      let d := with_id i d in
      let d := with_URL (Some (documentsURL d +:+ "/" +:+ py_str (_id d))) d in
      let fieldDict := delete "_id" fieldDict in
      match fieldDict !! "_rev" with
      | None => (fieldDict, clear_privates d)
      | Some r =>
          let d := with_rev r d in
          let fieldDict := delete "_rev" fieldDict in
          match fieldDict !! "_key" with
          | None => (fieldDict, clear_privates d)
          | Some k =>
              let d := with_key k d in
              let fieldDict := delete "_key" fieldDict in
              (fieldDict, d)
          end
      end
  end.

Definition Edge_setPrivates (jsonFieldInit : dict) (d : Doc) : dict * Doc :=
  let d :=
    match jsonFieldInit !! "_from" with
    | None => with_to VNone (with_from VNone d)
    | Some f =>
        let d := with_from f d in
        match jsonFieldInit !! "_to" with
        | None => with_to VNone (with_from VNone d)
        | Some t => with_to t d
        end
    end in
  Document_setPrivates jsonFieldInit d.

(** [self.setPrivates(...)]: dispatch on the class of the receiver. *)
Definition setPrivates (fieldDict : dict) (d : Doc) : dict * Doc :=
  match cls d with
  | Document => Document_setPrivates fieldDict d
  | Edge => Edge_setPrivates fieldDict d
  end.

(** *** __setitem__ *)

Definition Document___setitem__ (k : string) (v : value) : M unit :=
  d <- get ;;
  (if on_set (_validation (collection d))
   then call (validateField (collection d) k v)
   else ret tt) ;;
  upd (fun d => with_store (<[k := v]> (_store d)) d) ;;
  d <- get ;;
  match URL d with
  | Some _ =>
      x <- getitem (_store d) k ;;
      upd (fun d => with_patchStore (<[k := x]> (_patchStore d)) d)
  | None => ret tt
  end ;;
  upd (with_modified true).

(** *** set

    The result carries, next to the outcome and the state, the caller's
    dictionary as the call leaves it. *)
Definition Document_set (fieldDict : dict) (st : St) : result unit * dict * St :=
  let '(fieldDict, d) := setPrivates fieldDict (self st) in
  let st := {| self := d; sent := sent st |} in
  let '(r, st) :=
    (if on_set (_validation (collection d))
     then for_each (keys fieldDict)
                   (fun k => v <- getitem fieldDict k ;; Document___setitem__ k v)
     else upd (fun d => with_store (fieldDict ∪ _store d) d)) st in
  (r, fieldDict, st).

(** [self.set(d)] where the caller drops its dictionary afterwards. *)
Definition set_ (fieldDict : dict) : M unit :=
  fun st => let '(r, _, st) := Document_set fieldDict st in (r, st).

(** *** reset *)

Definition Document_reset (c : Collection) (jsonFieldInit : dict) : M unit :=
  upd (with_collection c) ;;
  upd (fun d => with_documentsURL (col_documentsURL (collection d)) d) ;;
  upd (with_store ∅) ;;
  upd (with_patchStore ∅) ;;
  set_ jsonFieldInit ;;
  upd (with_modified true).

Definition Edge_reset (edgeCollection : Collection) (jsonFieldInit : dict) : M unit :=
  Document_reset edgeCollection jsonFieldInit.

Definition reset (c : Collection) (jsonFieldInit : dict) : M unit :=
  d <- get ;;
  match cls d with
  | Document => Document_reset c jsonFieldInit
  | Edge => Edge_reset c jsonFieldInit
  end.

(** *** validate *)

Definition Document_validate_declared : list string := ["patch"].

Definition Document_validate (patch : value) : M unit :=
  d <- get ;;
  if truthy patch
  then call (_validateDct (collection d) (_patchStore d))
  else call (_validateDct (collection d) (_store d)).

(** [self.validate(...)] called with keyword arguments. *)
Definition call_validate (kwargs : list (string * value)) : M unit :=
  match unexpected_keyword Document_validate_declared kwargs with
  | Some k => raise (TypeError (unexpected_keyword_msg "validate" k))
  | None => Document_validate (kwarg "patch" (VBool false) kwargs)
  end.

(** The test [(r.status_code == a or r.status_code == b) and not data['error']];
    [data['error']] is read only when the status is one of the two. *)
Definition accepted (a b : Z) (r : Response) : M bool :=
  if Z.eqb (status_code r) a || Z.eqb (status_code r) b
  then e <- getitem (json r) "error" ;; ret (negb (truthy e))
  else ret false.

(** *** save *)

Definition Document_save (docArgs : dict) : M unit :=
  d <- get ;;
  if modified d then
    (if on_save (_validation (collection d))
     then call_validate [("patch", VBool false); ("logErrors", VBool false)]
     else ret tt) ;;
    d <- get ;;
    let params := <["collection" := VStr (col_name (collection d))]> docArgs in
    let payload := _store d in
    ru <- match URL d with
          | None =>
              r <- http {| meth := POST; url := documentsURL d;
                           params := Some params; data := Some payload |} ;;
              ret (r, false)
          | Some u =>
              r <- http {| meth := PUT; url := u;
                           params := Some params; data := Some payload |} ;;
              ret (r, true)
          end ;;
    let '(r, update) := ru in
    let data := json r in
    ok <- accepted 201 202 r ;;
    (if ok then
       if update : bool then
         rev <- getitem data "_rev" ;;
         upd (with_rev rev)
       else
         upd (fun d => (setPrivates data d).2)
     else
       if update : bool then
         m <- getitem data "errorMessage" ;;
         raise (UpdateError m data)
       else
         m <- getitem data "errorMessage" ;;
         raise (CreationError m data)) ;;
    upd (with_modified false)
  else ret tt.

(** Endpoint resolution in [Edge.save].  An instance whose class is
    exactly [Document] gives its [_id]; otherwise the test against
    [types.StringType] and [types.UnicodeType] looks up the name [types]. *)
Definition resolve_vertex (globals : list string) (msg : string) (x : vertex) : M value :=
  match x with
  | VtxObj o =>
      if bool_decide (cls o = Document) then ret (_id o)
      else lookup_global globals "types" ;; raise (ValueError msg)
  | VtxVal v =>
      lookup_global globals "types" ;;
      match v with
      | VStr s => ret (VStr s)
      | _ => raise (ValueError msg)
      end
  end.

Definition Edge_save (fromVertice toVertice : vertex) (edgeArgs : dict) : M unit :=
  d <- get ;;
  if bool_decide (URL d = None)
     && (vertex_is_None fromVertice || vertex_is_None toVertice)
  then raise (ValueError msg_edge_first_save)
  else
    fromId <- resolve_vertex module_globals msg_fromVertice fromVertice ;;
    toId <- resolve_vertex module_globals msg_toVertice toVertice ;;
    let edgeArgs := <["from" := fromId]> edgeArgs in
    let edgeArgs := <["to" := toId]> edgeArgs in
    upd (with_from fromId) ;;
    upd (with_to toId) ;;
    Document_save edgeArgs.

(** A keyword argument of a forwarded [save] that names a parameter of
    [Edge.save] binds to that parameter. *)
Definition kw_vertex (k : string) (kw : dict) : vertex :=
  match kw !! k with
  | Some v => VtxVal v
  | None => VtxVal VNone
  end.

(** [self.save(...)] with keyword arguments: dispatch on the class of the
    receiver. *)
Definition save (docArgs : dict) : M unit :=
  d <- get ;;
  match cls d with
  | Document => Document_save docArgs
  | Edge =>
      Edge_save (kw_vertex "fromVertice" docArgs) (kw_vertex "toVertice" docArgs)
                (delete "toVertice" (delete "fromVertice" docArgs))
  end.

Definition Document_forceSave (docArgs : dict) : M unit :=
  upd (with_modified true) ;;
  save docArgs.

Definition Document_saveCopy : M (value * value) :=
  d <- get ;;
  let old_key := _key d in
  reset (collection d) ∅ ;;
  save ∅ ;;
  d <- get ;;
  ret (old_key, _key d).

(** *** patch *)

Definition Document_patch (keepNull : value) (docArgs : dict) : M unit :=
  d <- get ;;
  (if on_save (_validation (collection d))
   then call_validate [("patch", VBool true); ("logErrors", VBool false)]
   else ret tt) ;;
  d <- get ;;
  match URL d with
  | None => raise (ValueError msg_patch_unsaved)
  | Some u =>
      if Nat.ltb 0 (size (_patchStore d)) then
        let params := <["collection" := VStr (col_name (collection d))]> docArgs in
        let params := <["keepNull" := keepNull]> params in
        let payload := _patchStore d in
        r <- http {| meth := PATCH; url := u;
                     params := Some params; data := Some payload |} ;;
        let data := json r in
        ok <- accepted 201 202 r ;;
        (if ok then
           rev <- getitem data "_rev" ;;
           upd (with_rev rev)
         else
           m <- getitem data "errorMessage" ;;
           raise (UpdateError m data)) ;;
        upd (with_modified false)
      else ret tt
  end.

(** *** delete *)

(** The test [(r.status_code != 200 and r.status_code != 202) or data['error']]. *)
Definition refused (r : Response) : M bool :=
  if negb (Z.eqb (status_code r) 200) && negb (Z.eqb (status_code r) 202)
  then ret true
  else e <- getitem (json r) "error" ;; ret (truthy e).

Definition Document_delete : M unit :=
  d <- get ;;
  match URL d with
  | None => raise (DeletionError (VStr msg_delete_unsaved) None)
  | Some u =>
      r <- http {| meth := DELETE; url := u; params := None; data := None |} ;;
      let data := json r in
      bad <- refused r ;;
      if bad : bool then
        m <- getitem data "errorMessage" ;;
        raise (DeletionError m (Some data))
      else
        d <- get ;;
        reset (collection d) ∅ ;;
        upd (with_modified true)
  end.

(** *** Construction *)

(** An object before [__init__] has run: no attribute is bound yet, and
    [reset] binds every one of them before it is read. *)
Definition blank (c : pyclass) (col : Collection) : Doc :=
  {| cls := c; collection := col; documentsURL := "";
     _store := ∅; _patchStore := ∅;
     _id := VNone; _rev := VNone; _key := VNone; URL := None;
     modified := false; _from := VNone; _to := VNone |}.

(** [Document(collection, jsonFieldInit)] and [Edge(collection, jsonFieldInit)],
    on a given request log. *)
Definition new (c : pyclass) (col : Collection) (jsonFieldInit : dict)
           (log : list Request) : result unit * St :=
  reset col jsonFieldInit {| self := blank c col; sent := log |}.

End Methods.

(** ** Several objects

    [Edge.links] calls methods of two further objects.  Objects live in a
    heap, and an argument is a plain value or a reference into it, so that
    the two endpoints and the edge may be one and the same object. *)

Abbreviation loc := nat.

Inductive pyobj : Type :=
| PVal (v : value)
| PRef (l : loc).

Record World : Type := {
  heap : gmap loc Doc;
  wire : list Request
}.

Definition W (A : Type) : Type := World -> result A * World.

Section Heap.

Variable server : list Request -> Request -> Response.

(** Run a method with the object at [l] as its receiver. *)
Definition on_object {A} (l : loc) (m : M A) : W A :=
  fun w =>
    match heap w !! l with
    | None => (Raise DanglingReference, w)
    | Some d =>
        let '(r, st) := m {| self := d; sent := wire w |} in
        (r, {| heap := <[l := self st]> (heap w); wire := sent st |})
    end.

(** [x.save()] *)
Definition call_save (x : pyobj) : W unit :=
  match x with
  | PVal v => fun w => (Raise (NoAttribute v "save"), w)
  | PRef l => on_object l (save server ∅)
  end.

(** The endpoint as [Edge.save] sees it when it is called. *)
Definition as_vertex (x : pyobj) (w : World) : option vertex :=
  match x with
  | PVal v => Some (VtxVal v)
  | PRef l => VtxObj <$> heap w !! l
  end.

(** [Edge.links]; [self] is the location of the edge.  The keyword
    dictionary [edgeArgs] cannot hold the names of the two parameters. *)
Definition Edge_links (self : loc) (fromVertice toVertice : pyobj)
           (edgeArgs : dict) : W unit :=
  fun w =>
    match heap w !! self with
    | None => (Raise DanglingReference, w)
    | Some e =>
        if bool_decide (URL e ≠ None)
        then (Raise (AttributeError msg_edge_already_saved), w)
        else
          match call_save fromVertice w with
          | (Raise x, w) => (Raise x, w)
          | (Ok _, w) =>
              match call_save toVertice w with
              | (Raise x, w) => (Raise x, w)
              | (Ok _, w) =>
                  match as_vertex fromVertice w, as_vertex toVertice w with
                  | Some f, Some t =>
                      on_object self (Edge_save server f t edgeArgs) w
                  | _, _ => (Raise DanglingReference, w)
                  end
              end
          end
    end.

End Heap.

(** ** Reading a field *)

Definition msg_no_field (k : string) : string :=
  "Document has no field " +:+ k
  +:+ ", for a permissive behaviour set 'allow_foreign_fields' to True".

(** [doc[k]]: with [allow_foreign_fields] it is [self._store.get(k)], which
    gives [None] for an absent key. *)
Definition Document___getitem__ (k : string) : M value :=
  d <- get ;;
  if allow_foreign_fields (_validation (collection d))
  then ret (default VNone (_store d !! k))
  else
    match _store d !! k with
    | Some v => ret v
    | None => raise (KeyError (msg_no_field k))
    end.

(** * Vocabulary of the statements *)

(** [m] keeps [P]: whatever the outcome, a state satisfying [P] is taken
    to one satisfying [P]. *)
Definition keeps {A} (P : St -> Prop) (m : M A) : Prop :=
  forall st, P st -> P (m st).2.

(** The assignment [doc[k] = v] is let through by the collection. *)
Definition field_accepted (d : Doc) (k : string) (v : value) : Prop :=
  on_set (_validation (collection d)) = false
  \/ validateField (collection d) k v = None.

(** A run of assignments [doc[k1] = v1; ...; doc[kn] = vn], each of which
    may be refused; a refused one leaves the run to go on. *)
Definition assignments (l : list (string * value)) (st : St) : St :=
  fold_left (fun st kv => (Document___setitem__ kv.1 kv.2 st).2) l st.

(** What [reset] leaves when it is given no fields. *)
Definition fresh (c : Collection) (d d' : Doc) : Prop :=
  cls d' = cls d /\ collection d' = c
  /\ documentsURL d' = col_documentsURL c
  /\ _store d' = ∅ /\ _patchStore d' = ∅
  /\ _id d' = VNone /\ _rev d' = VNone /\ _key d' = VNone
  /\ URL d' = None /\ modified d' = true.

(** The server accepted a DELETE: status 200 or 202 and a false error flag. *)
Definition delete_accepted (r : Response) : Prop :=
  (status_code r = 200 \/ status_code r = 202)
  /\ exists e, json r !! "error" = Some e /\ truthy e = false.

(** The server refused a DELETE: another status, or a true error flag. *)
Definition delete_refused (r : Response) : Prop :=
  (status_code r <> 200 /\ status_code r <> 202)
  \/ exists e, json r !! "error" = Some e /\ truthy e = true.

Definition DELETE_of (u : string) : Request :=
  {| meth := DELETE; url := u; params := None; data := None |}.

(** Either no identity at all, or id, revision, key and URL together. *)
Definition identity_consistent (d : Doc) : Prop :=
  (_id d = VNone /\ _rev d = VNone /\ _key d = VNone /\ URL d = None)
  \/ (_id d <> VNone /\ _rev d <> VNone /\ _key d <> VNone /\ URL d <> None).

(** No reserved key of the dictionary holds [None]. *)
Definition no_null_privates (m : dict) : Prop :=
  m !! "_id" <> Some VNone /\ m !! "_rev" <> Some VNone
  /\ m !! "_key" <> Some VNone.

Definition server_no_null (server : list Request -> Request -> Response) : Prop :=
  forall log rq, no_null_privates (json (server log rq)).

Definition Pid (st : St) : Prop := identity_consistent (self st).

(** The reserved keys that [setPrivates] deletes before it meets a missing
    one, in the order in which it reads them. *)
Definition deleted_privates (fieldDict : dict) : list string :=
  match fieldDict !! "_id" with
  | None => []
  | Some _ =>
      match fieldDict !! "_rev" with
      | None => ["_id"]
      | Some _ =>
          match fieldDict !! "_key" with
          | None => ["_id"; "_rev"]
          | Some _ => ["_id"; "_rev"; "_key"]
          end
      end
  end.

(** Updates that leave the identity attributes alone. *)
Definition same_identity (f : Doc -> Doc) : Prop :=
  forall d, _id (f d) = _id d /\ _rev (f d) = _rev d
            /\ _key (f d) = _key d /\ URL (f d) = URL d.

(** The operations a caller may apply to a document, one after the other;
    a raised exception is the caller's to handle, and the object lives on. *)
Inductive op : Type :=
| Op_reset (c : Collection) (jsonFieldInit : dict)
| Op_set (fieldDict : dict)
| Op_save (docArgs : dict)
| Op_Edge_save (fromVertice toVertice : vertex) (edgeArgs : dict)
| Op_forceSave (docArgs : dict)
| Op_saveCopy
| Op_patch (keepNull : value) (docArgs : dict)
| Op_delete
| Op_setitem (k : string) (v : value).

Definition run_op {order : KeyOrder} (server : list Request -> Request -> Response)
           (o : op) (st : St) : St :=
  match o with
  | Op_reset c f => (reset c f st).2
  | Op_set f => (set_ f st).2
  | Op_save a => (save server a st).2
  | Op_Edge_save f t a => (Edge_save server f t a st).2
  | Op_forceSave a => (Document_forceSave server a st).2
  | Op_saveCopy => (Document_saveCopy server st).2
  | Op_patch kn a => (Document_patch server kn a st).2
  | Op_delete => (Document_delete server st).2
  | Op_setitem k v => (Document___setitem__ k v st).2
  end.

Definition run_ops {order : KeyOrder} (server : list Request -> Request -> Response)
           (ops : list op) (st : St) : St :=
  fold_left (fun st o => run_op server o st) ops st.

(** The dictionaries an operation is given hold no [None] under a
    reserved key. *)
Definition op_no_null (o : op) : Prop :=
  match o with
  | Op_reset _ f => no_null_privates f
  | Op_set f => no_null_privates f
  | _ => True
  end.

(** The server accepted a POST or PUT: status 201 or 202 and a false error
    flag. *)
Definition save_accepted (r : Response) : Prop :=
  (status_code r = 201 \/ status_code r = 202)
  /\ exists e, json r !! "error" = Some e /\ truthy e = false.

Definition POST_of (d : Doc) (docArgs : dict) : Request :=
  {| meth := POST; url := documentsURL d;
     params := Some (<["collection" := VStr (col_name (collection d))]> docArgs);
     data := Some (_store d) |}.

(** The POST that [saveCopy] sends: the name of the collection as the only
    parameter, and an empty store as the payload. *)
Definition POST_copy (d : Doc) : Request :=
  {| meth := POST; url := col_documentsURL (collection d);
     params := Some (<["collection" := VStr (col_name (collection d))]> ∅);
     data := Some ∅ |}.

Definition write (s : dict) (kv : string * value) : dict := <[kv.1 := kv.2]> s.

(** The entries of [m] under the keys [l], in the order of [l]. *)
Definition items_of (m : dict) (l : list string) : list (string * value) :=
  (fun k => (k, default VNone (m !! k))) <$> l.

(** The PUT that [save] sends for a document that has the URL [u]. *)
Definition PUT_of (d : Doc) (docArgs : dict) (u : string) : Request :=
  {| meth := PUT; url := u;
     params := Some (<["collection" := VStr (col_name (collection d))]> docArgs);
     data := Some (_store d) |}.

(** The request that [save] sends: a POST to the collection without URL, a
    PUT to the URL with one. *)
Definition save_request (d : Doc) (docArgs : dict) : Request :=
  match URL d with
  | None => POST_of d docArgs
  | Some u => PUT_of d docArgs u
  end.

(** The PATCH that [patch] sends. *)
Definition PATCH_of (d : Doc) (keepNull : value) (docArgs : dict) (u : string)
  : Request :=
  {| meth := PATCH; url := u;
     params := Some (<["keepNull" := keepNull]>
                       (<["collection" := VStr (col_name (collection d))]> docArgs));
     data := Some (_patchStore d) |}.

(** The server refused a POST, PUT or PATCH: a status other than 201 and
    202, or a true error flag. *)
Definition save_refused (r : Response) : Prop :=
  (status_code r <> 201 /\ status_code r <> 202)
  \/ exists e, json r !! "error" = Some e /\ truthy e = true.

(** A predicate on states that looks at the receiver only. *)
Definition on_self (R : Doc -> Prop) (st : St) : Prop := R (self st).

(** A predicate on documents that looks at the two stores only. *)
Definition stores_only (R : Doc -> Prop) : Prop :=
  forall d d', _store d = _store d' -> _patchStore d = _patchStore d' ->
               R d -> R d'.

(** Every field of the patch store is a field of the store. *)
Definition patch_keys_in_store (d : Doc) : Prop :=
  dom (_patchStore d) ⊆ dom (_store d).

(** An endpoint that [Edge.save] resolves: an instance of exactly
    [Document]. *)
Definition is_Document (x : vertex) : bool :=
  match x with
  | VtxObj o => bool_decide (cls o = Document)
  | VtxVal _ => false
  end.

Definition vertex_id (x : vertex) : value :=
  match x with
  | VtxObj o => _id o
  | VtxVal v => v
  end.

(** A document without identity. *)
Definition detached (d : Doc) : Prop :=
  _id d = VNone /\ _rev d = VNone /\ _key d = VNone /\ URL d = None.

(** Computations that send nothing. *)
Definition quiet {A} (m : M A) : Prop :=
  forall L, keeps (fun st => sent st = L) m.

(** * Sample collections, servers and documents *)

Definition plain_validation : Validation :=
  {| on_set := false; on_save := false; allow_foreign_fields := false |}.

(** A collection that validates nothing. *)
Definition users : Collection :=
  {| col_name := "users";
     col_documentsURL := "http://localhost:8529/_api/document";
     _validation := plain_validation;
     validateField := fun _ _ => None;
     _validateDct := fun _ => None |}.

(** The same collection validating on save, with a validator that refuses
    every store. *)
Definition strict_users : Collection :=
  {| col_name := "users";
     col_documentsURL := "http://localhost:8529/_api/document";
     _validation := {| on_set := false; on_save := true;
                       allow_foreign_fields := false |};
     validateField := fun _ _ => None;
     _validateDct := fun _ => Some (ValidationError "refused") |}.

(** A server that accepts every request and answers with one identity. *)
Definition created : Response :=
  {| status_code := 201;
     json := list_to_map [("error", VBool false); ("_id", VStr "users/1");
                          ("_rev", VStr "7"); ("_key", VStr "1")] |}.

Definition accepting : list Request -> Request -> Response :=
  fun _ _ => created.

(** A server that refuses every request. *)
Definition not_found : Response :=
  {| status_code := 404;
     json := list_to_map [("error", VBool true);
                          ("errorMessage", VStr "document not found")] |}.

Definition refusing : list Request -> Request -> Response :=
  fun _ _ => not_found.

(** A document of [users] as the constructor leaves it, never saved. *)
Definition unsaved (col : Collection) (fields : dict) : Doc :=
  {| cls := Document; collection := col; documentsURL := col_documentsURL col;
     _store := fields; _patchStore := ∅;
     _id := VNone; _rev := VNone; _key := VNone; URL := None;
     modified := true; _from := VNone; _to := VNone |}.

Definition friendships : Collection :=
  {| col_name := "friendships";
     col_documentsURL := "http://localhost:8529/_api/edge";
     _validation := plain_validation;
     validateField := fun _ _ => None;
     _validateDct := fun _ => None |}.

(** An edge as the constructor leaves it, never saved. *)
Definition unsaved_edge : Doc :=
  {| cls := Edge; collection := friendships;
     documentsURL := col_documentsURL friendships;
     _store := ∅; _patchStore := ∅;
     _id := VNone; _rev := VNone; _key := VNone; URL := None;
     modified := true; _from := VNone; _to := VNone |}.

(** An edge that has been saved, with its endpoint ids, and changed since. *)
Definition saved_edge : Doc :=
  {| cls := Edge; collection := friendships;
     documentsURL := col_documentsURL friendships;
     _store := {[ "since" := VInt 2014 ]}; _patchStore := {[ "since" := VInt 2014 ]};
     _id := VStr "friendships/9"; _rev := VStr "3"; _key := VStr "9";
     URL := Some "http://localhost:8529/_api/edge/friendships/9";
     modified := true; _from := VStr "users/1"; _to := VStr "users/2" |}.

(** The fields of a server response. *)
Definition server_fields : dict :=
  list_to_map [("_id", VStr "users/1"); ("_rev", VStr "7"); ("_key", VStr "1");
               ("name", VStr "a")].

(** A document that has been saved and not changed since. *)
Definition saved_user : Doc :=
  {| cls := Document; collection := users;
     documentsURL := col_documentsURL users;
     _store := {[ "name" := VStr "a" ]}; _patchStore := ∅;
     _id := VStr "users/1"; _rev := VStr "6"; _key := VStr "1";
     URL := Some "http://localhost:8529/_api/document/users/1";
     modified := false; _from := VNone; _to := VNone |}.

Definition deleted : Response :=
  {| status_code := 200; json := {[ "error" := VBool false ]} |}.

Definition deleting : list Request -> Request -> Response :=
  fun _ _ => deleted.

(** A document built from a dictionary whose [_id] is [None]. *)
Definition null_id_fields : dict :=
  list_to_map [("_id", VNone); ("_rev", VStr "1"); ("_key", VStr "k")].

Definition null_id_doc : Doc :=
  {| cls := Document; collection := users;
     documentsURL := col_documentsURL users;
     _store := ∅; _patchStore := ∅;
     _id := VNone; _rev := VStr "1"; _key := VStr "k";
     URL := Some "http://localhost:8529/_api/document/None";
     modified := true; _from := VNone; _to := VNone |}.

(** A server whose answer to a POST carries a new key. *)
Definition copied : Response :=
  {| status_code := 201;
     json := list_to_map [("error", VBool false); ("_id", VStr "users/2");
                          ("_rev", VStr "1"); ("_key", VStr "2")] |}.

Definition copying : list Request -> Request -> Response :=
  fun _ _ => copied.

(** A dictionary with an id and a key and no revision. *)
Definition partial_fields : dict :=
  list_to_map [("_id", VStr "users/1"); ("_key", VStr "1"); ("name", VStr "a")].

(** A heap with a saved edge and two documents that were never saved. *)
Definition small_world : World :=
  {| heap := <[0%nat := saved_edge]>
               (<[1%nat := unsaved users {[ "name" := VStr "a" ]}]>
                  (<[2%nat := unsaved users {[ "name" := VStr "b" ]}]> ∅));
     wire := [] |}.

(** A server that accepts a PUT or PATCH and gives a new revision. *)
Definition updated : Response :=
  {| status_code := 202;
     json := list_to_map [("error", VBool false); ("_rev", VStr "8")] |}.

Definition updating : list Request -> Request -> Response :=
  fun _ _ => updated.

(** A document that has been saved and changed since. *)
Definition changed_user : Doc :=
  {| cls := Document; collection := users;
     documentsURL := col_documentsURL users;
     _store := <["age" := VInt 5]> {[ "name" := VStr "a" ]};
     _patchStore := {[ "age" := VInt 5 ]};
     _id := VStr "users/1"; _rev := VStr "7"; _key := VStr "1";
     URL := Some "http://localhost:8529/_api/document/users/1";
     modified := true; _from := VNone; _to := VNone |}.

(** A collection that refuses a read of an absent field, and one that
    allows it. *)
Definition lenient_users : Collection :=
  {| col_name := "users";
     col_documentsURL := "http://localhost:8529/_api/document";
     _validation := {| on_set := false; on_save := false;
                       allow_foreign_fields := true |};
     validateField := fun _ _ => None;
     _validateDct := fun _ => None |}.

(** The fields of an edge as the server stores it. *)
Definition edge_fields : dict :=
  list_to_map [("_id", VStr "friendships/9"); ("_rev", VStr "3"); ("_key", VStr "9");
               ("_from", VStr "users/1"); ("_to", VStr "users/2");
               ("since", VInt 2014)].

(** A document that was loaded from the server and then given fields by
    [set], without validation on set: modified, nothing to patch. *)
Definition loaded_user : Doc :=
  {| cls := Document; collection := users;
     documentsURL := col_documentsURL users;
     _store := {[ "name" := VStr "a" ]}; _patchStore := ∅;
     _id := VStr "users/1"; _rev := VStr "7"; _key := VStr "1";
     URL := Some "http://localhost:8529/_api/document/users/1";
     modified := true; _from := VNone; _to := VNone |}.

(** A collection that validates on set and lets every field through. *)
Definition checked_users : Collection :=
  {| col_name := "users";
     col_documentsURL := "http://localhost:8529/_api/document";
     _validation := {| on_set := true; on_save := false;
                       allow_foreign_fields := false |};
     validateField := fun _ _ => None;
     _validateDct := fun _ => None |}.

(** Two vertices: one saved, one never saved. *)
Definition vertex_a : vertex := VtxObj saved_user.
Definition vertex_b : vertex := VtxObj (unsaved users {[ "name" := VStr "b" ]}).

(** A collection that validates on set and wants [age] to be an integer. *)
Definition picky_users : Collection :=
  {| col_name := "users";
     col_documentsURL := "http://localhost:8529/_api/document";
     _validation := {| on_set := true; on_save := false;
                       allow_foreign_fields := false |};
     validateField := fun k v =>
       if String.eqb k "age"
       then match v with
            | VInt _ => None
            | _ => Some (ValidationError "age must be an integer")
            end
       else None;
     _validateDct := fun _ => None |}.

(** A document of that collection that has been saved and not changed
    since. *)
Definition picky_saved : Doc :=
  {| cls := Document; collection := picky_users;
     documentsURL := col_documentsURL picky_users;
     _store := {[ "name" := VStr "a" ]}; _patchStore := ∅;
     _id := VStr "users/1"; _rev := VStr "6"; _key := VStr "1";
     URL := Some "http://localhost:8529/_api/document/users/1";
     modified := false; _from := VNone; _to := VNone |}.

(** A collection that validates on set and lets no field [_key] through. *)
Definition key_picky : Collection :=
  {| col_name := "users";
     col_documentsURL := "http://localhost:8529/_api/document";
     _validation := {| on_set := true; on_save := false;
                       allow_foreign_fields := false |};
     validateField := fun k _ =>
       if String.eqb k "_key"
       then Some (ValidationError "_key is not a field")
       else None;
     _validateDct := fun _ => None |}.

(** A dictionary with an id and a key, and nothing else. *)
Definition id_and_key : dict :=
  list_to_map [("_id", VStr "users/1"); ("_key", VStr "1")].

(** A server that answers 404 with an error flag and no message. *)
Definition bare_404 : Response :=
  {| status_code := 404; json := {[ "error" := VBool true ]} |}.

Definition missing : list Request -> Request -> Response :=
  fun _ _ => bare_404.

(** * Properties *)

(** ** Reasoning about computations *)

Lemma keeps_ret {A} P (a : A) : keeps P (ret a).
Proof. by intros st H. Qed.

Lemma keeps_raise {A} P e : keeps P (@raise A e).
Proof. by intros st H. Qed.

Lemma keeps_get P : keeps P get.
Proof. by intros st H. Qed.

Lemma keeps_bind {A B} P (m : M A) (f : A -> M B) :
  keeps P m -> (forall a, keeps P (f a)) -> keeps P (bind m f).
Proof.
  intros Hm Hf st H. unfold bind.
  specialize (Hm st H). destruct (m st) as [[a|e] st']; simpl in *.
  - by apply Hf.
  - done.
Qed.

Lemma keeps_getitem P d k : keeps P (getitem d k).
Proof. unfold getitem. destruct (d !! k); [apply keeps_ret | apply keeps_raise]. Qed.

Lemma keeps_call P r : keeps P (call r).
Proof. destruct r; [apply keeps_raise | apply keeps_ret]. Qed.

Lemma keeps_if {A} P (b : bool) (m1 m2 : M A) :
  keeps P m1 -> keeps P m2 -> keeps P (if b then m1 else m2).
Proof. by destruct b. Qed.

Lemma keeps_for_each {A} P (l : list A) (body : A -> M unit) :
  (forall x, keeps P (body x)) -> keeps P (for_each l body).
Proof.
  intros Hb. induction l as [|x l IH]; simpl.
  - apply keeps_ret.
  - apply keeps_bind; [apply Hb | intros _; apply IH].
Qed.

Lemma keeps_upd (P : St -> Prop) (f : Doc -> Doc) :
  (forall d log, P {| self := d; sent := log |} ->
                 P {| self := f d; sent := log |}) ->
  keeps P (upd f).
Proof. intros Hf [d log] H. simpl. by apply Hf. Qed.

Lemma keeps_lookup_global P g n : keeps P (lookup_global g n).
Proof.
  unfold lookup_global. case_bool_decide; [apply keeps_ret | apply keeps_raise].
Qed.

Lemma keeps_call_validate P kw : keeps P (call_validate kw).
Proof.
  unfold call_validate. destruct (unexpected_keyword _ _).
  - apply keeps_raise.
  - unfold Document_validate. apply keeps_bind; [apply keeps_get |].
    intros d. destruct (truthy _); apply keeps_call.
Qed.

Ltac keeps_step :=
  first
    [ apply keeps_ret | apply keeps_raise | apply keeps_get
    | apply keeps_getitem | apply keeps_call | apply keeps_lookup_global
    | apply keeps_call_validate
    | apply keeps_bind; [| intros ?]
    | apply keeps_if
    | apply keeps_for_each; intros ? ].

(** The validation call made by [save] and [patch] names a keyword that
    [validate] does not declare. *)
Lemma call_validate_logErrors (p : value) (st : St) :
  call_validate [("patch", p); ("logErrors", VBool false)] st
  = (Raise (TypeError "validate() got an unexpected keyword argument 'logErrors'"), st).
Proof. reflexivity. Qed.

(** ** Field assignment *)

Lemma setitem_accepted (d : Doc) (log : list Request) k v :
  field_accepted d k v ->
  Document___setitem__ k v {| self := d; sent := log |}
  = (Ok tt,
     {| self := with_modified true
          (match URL d with
           | Some _ => with_patchStore (<[k := v]> (_patchStore d))
                                       (with_store (<[k := v]> (_store d)) d)
           | None => with_store (<[k := v]> (_store d)) d
           end);
        sent := log |}).
Proof.
  intros Hacc.
  assert (Hv : (if on_set (_validation (collection d))
                then call (validateField (collection d) k v)
                else ret tt) {| self := d; sent := log |}
               = (Ok tt, {| self := d; sent := log |})).
  { destruct Hacc as [-> | Hacc]; [done |].
    rewrite Hacc. by destruct (on_set _). }
  unfold Document___setitem__, bind at 1, get at 1. simpl.
  unfold bind at 1. rewrite Hv. simpl.
  unfold bind, upd, get. simpl.
  destruct (URL d) eqn:HU; simpl; [| done].
  unfold getitem. rewrite lookup_insert_eq. simpl. done.
Qed.

Lemma setitem_refused (d : Doc) (log : list Request) k v e :
  on_set (_validation (collection d)) = true ->
  validateField (collection d) k v = Some e ->
  Document___setitem__ k v {| self := d; sent := log |}
  = (Raise e, {| self := d; sent := log |}).
Proof.
  intros Hon Hv. unfold Document___setitem__, bind, get. simpl.
  rewrite Hon, Hv. done.
Qed.

Lemma setitem_cases (d : Doc) k v :
  field_accepted d k v
  \/ exists e, on_set (_validation (collection d)) = true
               /\ validateField (collection d) k v = Some e.
Proof.
  unfold field_accepted.
  destruct (on_set _); [| by left; left].
  destruct (validateField _ k v) as [e|]; [right; eauto | by left; right].
Qed.

Lemma setitem_unsaved_patchStore (st : St) k v :
  URL (self st) = None ->
  URL (self (Document___setitem__ k v st).2) = None
  /\ _patchStore (self (Document___setitem__ k v st).2) = _patchStore (self st).
Proof.
  destruct st as [d log]. simpl. intros HU.
  destruct (setitem_cases d k v) as [Hacc | (e & Hon & Hv)].
  - rewrite (setitem_accepted _ _ _ _ Hacc). simpl. by rewrite HU.
  - by rewrite (setitem_refused _ _ _ _ _ Hon Hv).
Qed.

Lemma assignments_unsaved_patchStore (l : list (string * value)) (st : St) :
  URL (self st) = None ->
  _patchStore (self (assignments l st)) = _patchStore (self st).
Proof.
  revert st. induction l as [|[k v] l IH]; intros st HU; [done |].
  simpl. destruct (setitem_unsaved_patchStore st k v HU) as [HU' Hp].
  rewrite (IH _ HU'). done.
Qed.

(** C1, as it holds.  An assignment [doc[k] = v] that the collection lets
    through (validation on set is off, or [validateField] accepts the
    field) sets [modified], writes [v] under [k] into the store, and writes
    it into the patch store exactly when the document has a URL.  An
    assignment that is not let through changes nothing.  No assignment sends
    anything, and on a document without URL no run of assignments changes
    the patch store, so an empty one stays empty. *)
Theorem setitem_marks_and_mirrors
  (d : Doc) (log : list Request) (k : string) (v : value)
  (l : list (string * value)) :
  let st := {| self := d; sent := log |} in
  let out := Document___setitem__ k v st in
  (out.1 = Ok tt <-> field_accepted d k v)
  /\ (field_accepted d k v ->
      modified (self out.2) = true
      /\ _store (self out.2) = <[k := v]> (_store d)
      /\ (URL d <> None -> _patchStore (self out.2) = <[k := v]> (_patchStore d))
      /\ (URL d = None -> _patchStore (self out.2) = _patchStore d))
  /\ (~ field_accepted d k v -> out.2 = st)
  /\ sent out.2 = log
  /\ (URL d = None ->
      _patchStore (self (assignments l st)) = _patchStore d
      /\ (_patchStore d = ∅ -> _patchStore (self (assignments l st)) = ∅)).
Proof.
  intros st out. subst st out.
  destruct (setitem_cases d k v) as [Hacc | (e & Hon & Hv)].
  - rewrite (setitem_accepted _ _ _ _ Hacc). simpl.
    split; [done |]. split.
    { intros _. destruct (URL d) eqn:HU; simpl; repeat split; congruence. }
    split; [done |]. split; [done |].
    intros HU.
    pose proof (assignments_unsaved_patchStore l {| self := d; sent := log |} HU) as H.
    simpl in H.
    split; [done | congruence].
  - rewrite (setitem_refused _ _ _ _ _ Hon Hv). simpl.
    assert (Hn : ~ field_accepted d k v).
    { intros [H | H]; congruence. }
    split; [split; [done | done] |].
    split; [done |]. split; [done |]. split; [done |].
    intros HU.
    pose proof (assignments_unsaved_patchStore l {| self := d; sent := log |} HU) as H.
    simpl in H.
    split; [done | congruence].
Qed.

Lemma new_unsaved :
  new Document users {[ "name" := VStr "a" ]} []
  = (Ok tt, {| self := unsaved users {[ "name" := VStr "a" ]}; sent := [] |}).
Proof. vm_compute. reflexivity. Qed.

Lemma setitem_marks_and_mirrors_witness :
  let out := Document___setitem__ "age" (VInt 5) {| self := saved_user; sent := [] |} in
  modified saved_user = false
  /\ modified (self out.2) = true
  /\ _store (self out.2) = <["age" := VInt 5]> (_store saved_user)
  /\ _patchStore (self out.2) = <["age" := VInt 5]> (_patchStore saved_user)
  /\ _patchStore (self (assignments [("age", VInt 5); ("name", VStr "a")]
                          {| self := unsaved users ∅; sent := [] |})) = ∅.
Proof.
  intros out. subst out.
  destruct (setitem_marks_and_mirrors saved_user [] "age" (VInt 5) [])
    as (_ & H & _).
  destruct (H (or_introl eq_refl)) as (H1 & H2 & H3 & _).
  destruct (setitem_marks_and_mirrors (unsaved users ∅) [] "age" (VInt 5)
              [("age", VInt 5); ("name", VStr "a")]) as (_ & _ & _ & _ & Hs).
  split; [reflexivity |]. split; [exact H1 |]. split; [exact H2 |].
  split; [apply H3; discriminate |].
  apply Hs; reflexivity.
Defined.

(** C1, as stated, fails: in a collection that validates on set, an
    assignment that the validator refuses raises its error; [modified]
    stays false and the store is not written. *)
Lemma setitem_refused_changes_nothing :
  let st := {| self := picky_saved; sent := [] |} in
  Document___setitem__ "age" (VStr "five") st
  = (Raise (ValidationError "age must be an integer"), st)
  /\ modified (self (Document___setitem__ "age" (VStr "five") st).2) = false
  /\ _store (self (Document___setitem__ "age" (VStr "five") st).2) !! "age" = None.
Proof. vm_compute. repeat split; reflexivity. Qed.

(** ** patch *)

Lemma patch_unsaved_eq
  (server : list Request -> Request -> Response)
  (d : Doc) (log : list Request) (keepNull : value) (docArgs : dict) :
  URL d = None ->
  Document_patch server keepNull docArgs {| self := d; sent := log |}
  = (Raise (if on_save (_validation (collection d))
            then TypeError "validate() got an unexpected keyword argument 'logErrors'"
            else ValueError msg_patch_unsaved),
     {| self := d; sent := log |}).
Proof.
  intros HU.
  unfold Document_patch, bind at 1, get at 1. simpl.
  destruct (on_save (_validation (collection d))) eqn:Hon.
  - unfold bind at 1. by rewrite call_validate_logErrors.
  - unfold bind, ret, get. simpl. by rewrite HU.
Qed.

(** C2, as it holds.  On a document without URL, [patch] raises, issues no
    request and changes nothing, whatever its arguments; when the collection
    does not validate on save the exception is the "not previously saved"
    [ValueError]. *)
Theorem patch_unsaved_fails
  (server : list Request -> Request -> Response)
  (d : Doc) (log : list Request) (keepNull : value) (docArgs : dict) :
  URL d = None ->
  let st := {| self := d; sent := log |} in
  let out := Document_patch server keepNull docArgs st in
  (exists e, out.1 = Raise e)
  /\ out.2 = st
  /\ (on_save (_validation (collection d)) = false ->
      out.1 = Raise (ValueError msg_patch_unsaved)).
Proof.
  intros HU st out. subst st out.
  rewrite (patch_unsaved_eq server d log keepNull docArgs HU). simpl.
  split; [eauto |]. split; [done |]. by intros ->.
Qed.

Lemma patch_unsaved_fails_witness :
  (Document_patch accepting (VBool true) ∅
     {| self := unsaved users ∅; sent := [] |}).1
  = Raise (ValueError msg_patch_unsaved).
Proof.
  exact (proj2 (proj2 (patch_unsaved_fails accepting (unsaved users ∅) []
                         (VBool true) ∅ eq_refl)) eq_refl).
Defined.

(** C2, as stated, fails: in a collection that validates on save, [patch]
    on a never-saved document does not raise the "not previously saved"
    error; the validation call that comes first raises. *)
Lemma patch_unsaved_not_always_ValueError :
  let st := {| self := unsaved strict_users ∅; sent := [] |} in
  new Document strict_users ∅ [] = (Ok tt, st)
  /\ URL (self st) = None
  /\ (Document_patch accepting (VBool true) ∅ st).1
     = Raise (TypeError "validate() got an unexpected keyword argument 'logErrors'")
  /\ (Document_patch accepting (VBool true) ∅ st).1
     <> Raise (ValueError msg_patch_unsaved).
Proof.
  split; [vm_compute; reflexivity |].
  split; [reflexivity |].
  split; [vm_compute; reflexivity |].
  vm_compute. discriminate.
Qed.

(** ** save with validation *)

Lemma Document_save_validate_raises
  (server : list Request -> Request -> Response)
  (d : Doc) (log : list Request) (docArgs : dict) :
  modified d = true ->
  on_save (_validation (collection d)) = true ->
  Document_save server docArgs {| self := d; sent := log |}
  = (Raise (TypeError "validate() got an unexpected keyword argument 'logErrors'"),
     {| self := d; sent := log |}).
Proof.
  intros Hm Hon.
  unfold Document_save, bind at 1, get at 1. simpl.
  rewrite Hm, Hon. unfold bind at 1.
  by rewrite call_validate_logErrors.
Qed.

(** C3.  With validation on save enabled, [save] on a modified document
    raises [TypeError] at the call of [validate], whatever the store and
    whatever the collection's validator would say: the validator is not
    reached, nothing is sent and nothing changes. *)
Theorem save_on_save_TypeError
  (server : list Request -> Request -> Response)
  (d : Doc) (log : list Request) (docArgs : dict) :
  modified d = true ->
  on_save (_validation (collection d)) = true ->
  Document_save server docArgs {| self := d; sent := log |}
  = (Raise (TypeError "validate() got an unexpected keyword argument 'logErrors'"),
     {| self := d; sent := log |}).
Proof.
  intros Hm Hon.
  unfold Document_save, bind at 1, get at 1. cbn [self].
  rewrite Hm, Hon.
  unfold bind at 1. rewrite call_validate_logErrors.
  reflexivity.
Qed.

Lemma save_on_save_TypeError_witness :
  let d := unsaved strict_users {[ "name" := VStr "a" ]} in
  _validateDct (collection d) (_store d) = Some (ValidationError "refused")
  /\ Document_save accepting ∅ {| self := d; sent := [] |}
     = (Raise (TypeError "validate() got an unexpected keyword argument 'logErrors'"),
        {| self := d; sent := [] |}).
Proof.
  intros d. split; [reflexivity |].
  exact (save_on_save_TypeError accepting d [] ∅ eq_refl eq_refl).
Defined.

(** ** Edge.save *)

Lemma resolve_vertex_None (g : list string) (msg : string) (st : St) :
  resolve_vertex g msg (VtxVal VNone) st
  = (Raise (if bool_decide ("types" ∈ g) then ValueError msg
            else NameError "types"), st).
Proof.
  unfold resolve_vertex, lookup_global, bind.
  by case_bool_decide.
Qed.

Lemma Edge_save_first_time
  (server : list Request -> Request -> Response)
  (d : Doc) (log : list Request) (f t : vertex) (edgeArgs : dict) :
  URL d = None ->
  vertex_is_None f || vertex_is_None t = true ->
  Edge_save server f t edgeArgs {| self := d; sent := log |}
  = (Raise (ValueError msg_edge_first_save), {| self := d; sent := log |}).
Proof.
  intros HU Hn. unfold Edge_save, bind, get. simpl.
  rewrite bool_decide_eq_true_2 by done. by rewrite Hn.
Qed.

Lemma Edge_save_again_no_endpoints
  (server : list Request -> Request -> Response)
  (d : Doc) (log : list Request) (edgeArgs : dict) :
  URL d <> None ->
  Edge_save server (VtxVal VNone) (VtxVal VNone) edgeArgs {| self := d; sent := log |}
  = (Raise (NameError "types"), {| self := d; sent := log |}).
Proof.
  intros HU. unfold Edge_save, bind at 1, get at 1. cbn [self andb].
  rewrite bool_decide_eq_false_2 by done.
  unfold bind at 1. cbn [andb]. cbv beta. by rewrite resolve_vertex_None.
Qed.

(** C4.  On an edge without URL, [save] without both endpoints raises the
    "must specify" [ValueError] and sends nothing.  On an edge with a URL,
    [save] without endpoints does not succeed: resolving the endpoint
    [None] raises, [NameError] here since the module binds no name [types],
    and [ValueError] if it did; nothing is sent and the stored endpoint ids
    are not consulted. *)
Theorem Edge_save_endpoints
  (server : list Request -> Request -> Response)
  (d : Doc) (log : list Request) (f t : vertex) (edgeArgs : dict) :
  let st := {| self := d; sent := log |} in
  (URL d = None -> vertex_is_None f || vertex_is_None t = true ->
   Edge_save server f t edgeArgs st = (Raise (ValueError msg_edge_first_save), st))
  /\ (URL d <> None ->
      Edge_save server (VtxVal VNone) (VtxVal VNone) edgeArgs st
      = (Raise (NameError "types"), st))
  /\ (forall g msg, exists e, resolve_vertex g msg (VtxVal VNone) st = (Raise e, st)).
Proof.
  intros st. subst st. split; [| split].
  - apply Edge_save_first_time.
  - apply Edge_save_again_no_endpoints.
  - intros g msg. rewrite resolve_vertex_None. eauto.
Qed.

Lemma new_unsaved_edge :
  new Edge friendships ∅ [] = (Ok tt, {| self := unsaved_edge; sent := [] |}).
Proof. vm_compute. reflexivity. Qed.

Lemma Edge_save_endpoints_witness :
  Edge_save accepting (VtxVal (VStr "users/1")) (VtxVal VNone) ∅
            {| self := unsaved_edge; sent := [] |}
  = (Raise (ValueError msg_edge_first_save),
     {| self := unsaved_edge; sent := [] |})
  /\ Edge_save accepting (VtxVal VNone) (VtxVal VNone) ∅
               {| self := saved_edge; sent := [] |}
     = (Raise (NameError "types"), {| self := saved_edge; sent := [] |}).
Proof.
  split.
  - exact (proj1 (Edge_save_endpoints accepting unsaved_edge []
                    (VtxVal (VStr "users/1")) (VtxVal VNone) ∅) eq_refl eq_refl).
  - apply (proj1 (proj2 (Edge_save_endpoints accepting saved_edge []
                           (VtxVal VNone) (VtxVal VNone) ∅))).
    discriminate.
Defined.

(** ** set and save *)

(** *** Walking through a dictionary *)

Lemma keys_empty {order : KeyOrder} : keys ∅ = [].
Proof. apply Permutation_nil_r. by rewrite keys_lists, map_to_list_empty. Qed.

Lemma elem_of_keys {order : KeyOrder} (m : dict) (k : string) :
  k ∈ keys m <-> is_Some (m !! k).
Proof.
  rewrite keys_lists, list_elem_of_fmap. split.
  - intros ([k' v] & -> & Hin). apply elem_of_map_to_list in Hin. eauto.
  - intros [v Hv]. exists (k, v). split; [done |]. by apply elem_of_map_to_list.
Qed.

Lemma NoDup_keys {order : KeyOrder} (m : dict) : NoDup (keys m).
Proof. rewrite keys_lists. apply NoDup_fst_map_to_list. Qed.

Lemma items_of_fst (m : dict) (l : list string) : (items_of m l).*1 = l.
Proof.
  unfold items_of. induction l as [|k l IH]; [done |].
  rewrite !fmap_cons. simpl. by rewrite IH.
Qed.

Lemma items_of_keys {order : KeyOrder} (m : dict) :
  items_of m (keys m) ≡ₚ map_to_list m.
Proof.
  unfold items_of. rewrite keys_lists.
  assert (H : Forall (fun kv => (kv.1, default VNone (m !! kv.1)) = kv)
                     (map_to_list m)).
  { apply Forall_forall. intros [k v] Hin. apply elem_of_map_to_list in Hin.
    simpl. by rewrite Hin. }
  induction H as [|kv l Hkv _ IH]; [done |].
  rewrite !fmap_cons. by rewrite Hkv, IH.
Qed.

Lemma list_to_map_items_of_keys {order : KeyOrder} (m : dict) :
  list_to_map (items_of m (keys m)) = m.
Proof.
  transitivity (list_to_map (map_to_list m) : dict);
    [| apply list_to_map_to_list].
  apply list_to_map_proper; [| apply items_of_keys].
  rewrite items_of_fst. apply NoDup_keys.
Qed.

Lemma elem_of_items_of_keys {order : KeyOrder} (m : dict) (k : string) (v : value) :
  (k, v) ∈ items_of m (keys m) <-> m !! k = Some v.
Proof. by rewrite items_of_keys, elem_of_map_to_list. Qed.

(** Going through keys that are all there, reading each value, is going
    through the entries. *)
Lemma for_each_keys_items (m : dict) (l : list string)
      (body : string -> value -> M unit) (st : St) :
  (forall k, k ∈ l -> is_Some (m !! k)) ->
  for_each l (fun k => v <- getitem m k ;; body k v) st
  = for_each (items_of m l) (fun kv => body kv.1 kv.2) st.
Proof.
  revert st. induction l as [|k l IH]; intros st Hl; [done |].
  destruct (Hl k) as [v Hv]; [by left |].
  simpl. rewrite Hv. unfold bind, getitem. rewrite Hv. simpl.
  destruct (body k v st) as [[[]|e] st']; [| done].
  apply IH. intros k' Hk'. apply Hl. by right.
Qed.

Lemma for_each_keys {order : KeyOrder} (m : dict)
      (body : string -> value -> M unit) (st : St) :
  for_each (keys m) (fun k => v <- getitem m k ;; body k v) st
  = for_each (items_of m (keys m)) (fun kv => body kv.1 kv.2) st.
Proof. apply for_each_keys_items. intros k. apply elem_of_keys. Qed.

Lemma setPrivates_frame (fieldDict : dict) (d : Doc) :
  let d' := (setPrivates fieldDict d).2 in
  cls d' = cls d /\ collection d' = collection d
  /\ documentsURL d' = documentsURL d
  /\ _store d' = _store d /\ _patchStore d' = _patchStore d
  /\ modified d' = modified d.
Proof.
  unfold setPrivates, Edge_setPrivates, Document_setPrivates.
  destruct (cls d) eqn:Hc; repeat case_match; simpl; by rewrite ?Hc.
Qed.

Lemma save_unmodified
  (server : list Request -> Request -> Response)
  (d : Doc) (log : list Request) (docArgs : dict) :
  modified d = false ->
  Document_save server docArgs {| self := d; sent := log |}
  = (Ok tt, {| self := d; sent := log |}).
Proof. intros Hm. unfold Document_save, bind, get. simpl. by rewrite Hm. Qed.

Lemma Document_set_no_validation {order : KeyOrder} (fieldDict : dict) (d : Doc) (log : list Request) :
  on_set (_validation (collection d)) = false ->
  Document_set fieldDict {| self := d; sent := log |}
  = (Ok tt, (setPrivates fieldDict d).1,
     {| self := with_store ((setPrivates fieldDict d).1
                              ∪ _store (setPrivates fieldDict d).2)
                           (setPrivates fieldDict d).2;
        sent := log |}).
Proof.
  intros Hon. unfold Document_set. simpl.
  destruct (setPrivates_frame fieldDict d) as (_ & Hc & _).
  destruct (setPrivates fieldDict d) as [fd' d']. simpl in *.
  by rewrite Hc, Hon.
Qed.

Lemma Document_set_nothing_left {order : KeyOrder} (fieldDict : dict) (d : Doc) (log : list Request) :
  (setPrivates fieldDict d).1 = ∅ ->
  exists d', Document_set fieldDict {| self := d; sent := log |}
             = (Ok tt, ∅, {| self := d'; sent := log |})
             /\ modified d' = modified d.
Proof.
  intros He. unfold Document_set. simpl.
  destruct (setPrivates_frame fieldDict d) as (_ & _ & _ & _ & _ & Hm).
  destruct (setPrivates fieldDict d) as [fd' d']. simpl in *. subst fd'.
  destruct (on_set _).
  - rewrite keys_empty. simpl. eauto.
  - simpl. eexists. split; [reflexivity |]. done.
Qed.

(** C5, as it holds.  [set] does not clear [modified].  When the flag is
    false before [set], and [set] assigns no field through validation
    (validation on set is off, or nothing but the three reserved keys was
    given), the flag is false after it and the following [save] sends
    nothing and changes nothing, whatever the validation on save. *)
Theorem set_then_save_silent {order : KeyOrder}
  (server : list Request -> Request -> Response)
  (d : Doc) (log : list Request) (fields docArgs : dict) :
  modified d = false ->
  on_set (_validation (collection d)) = false \/ (setPrivates fields d).1 = ∅ ->
  let out := Document_set fields {| self := d; sent := log |} in
  out.1.1 = Ok tt
  /\ modified (self out.2) = false
  /\ sent out.2 = log
  /\ Document_save server docArgs out.2 = (Ok tt, out.2).
Proof.
  intros Hm [Hon | He] out; subst out.
  - rewrite (Document_set_no_validation _ _ _ Hon). simpl.
    destruct (setPrivates_frame fields d) as (_ & _ & _ & _ & _ & Hm').
    simpl in Hm'.
    split; [done |]. split; [congruence |]. split; [done |].
    apply save_unmodified. simpl. congruence.
  - destruct (Document_set_nothing_left fields d log He) as (d' & -> & Hm').
    simpl. split; [done |]. split; [congruence |]. split; [done |].
    apply save_unmodified. congruence.
Qed.

Lemma set_then_save_silent_witness :
  let out := Document_set server_fields {| self := saved_user; sent := [] |} in
  sent out.2 = [] /\ Document_save accepting ∅ out.2 = (Ok tt, out.2).
Proof.
  intros out.
  destruct (set_then_save_silent accepting saved_user [] server_fields ∅
              eq_refl (or_introl eq_refl)) as (_ & _ & H3 & H4).
  split; [exact H3 | exact H4].
Defined.

(** C5, as stated, fails: a document fresh from its constructor is
    modified, [set] leaves it so, and the [save] that follows sends a PUT. *)
Lemma set_then_save_sends :
  let st0 := {| self := unsaved users ∅; sent := [] |} in
  let out := Document_set server_fields st0 in
  new Document users ∅ [] = (Ok tt, st0)
  /\ out.1.1 = Ok tt
  /\ modified (self out.2) = true
  /\ sent (Document_save accepting ∅ out.2).2
     = [ {| meth := PUT;
            url := "http://localhost:8529/_api/document/users/1";
            params := Some {[ "collection" := VStr "users" ]};
            data := Some {[ "name" := VStr "a" ]} |} ].
Proof. vm_compute. repeat split; reflexivity. Qed.

(** ** reset and delete *)

Lemma setPrivates_empty (d : Doc) :
  (setPrivates ∅ d).1 = ∅
  /\ _id (setPrivates ∅ d).2 = VNone /\ _rev (setPrivates ∅ d).2 = VNone
  /\ _key (setPrivates ∅ d).2 = VNone /\ URL (setPrivates ∅ d).2 = None.
Proof.
  unfold setPrivates, Edge_setPrivates, Document_setPrivates.
  rewrite !lookup_empty. by destruct (cls d).
Qed.

Lemma set_empty {order : KeyOrder} (d : Doc) (log : list Request) :
  exists d', set_ ∅ {| self := d; sent := log |}
             = (Ok tt, {| self := d'; sent := log |})
             /\ cls d' = cls d /\ collection d' = collection d
             /\ documentsURL d' = documentsURL d
             /\ _store d' = _store d /\ _patchStore d' = _patchStore d
             /\ _id d' = VNone /\ _rev d' = VNone /\ _key d' = VNone
             /\ URL d' = None.
Proof.
  unfold set_, Document_set. simpl.
  destruct (setPrivates_frame ∅ d) as (H1 & H2 & H3 & H4 & H5 & _).
  destruct (setPrivates_empty d) as (He & H6 & H7 & H8 & H9).
  destruct (setPrivates ∅ d) as [fd' d']. simpl in *. subst fd'.
  destruct (on_set _).
  - rewrite keys_empty. simpl. eexists. split; [reflexivity |]. done.
  - simpl. eexists. split; [reflexivity |]. simpl.
    rewrite (left_id_L ∅ (∪)). done.
Qed.

Lemma reset_empty {order : KeyOrder} (c : Collection) (d : Doc) (log : list Request) :
  exists d', reset c ∅ {| self := d; sent := log |}
             = (Ok tt, {| self := d'; sent := log |})
             /\ fresh c d d'.
Proof.
  assert (H : exists d', Document_reset c ∅ {| self := d; sent := log |}
                         = (Ok tt, {| self := d'; sent := log |})
                         /\ fresh c d d').
  { unfold Document_reset, bind at 1 2 3 4, upd at 1 2 3 4. simpl.
    unfold bind at 1.
    destruct (set_empty
                (with_patchStore ∅ (with_store ∅
                   (with_documentsURL (col_documentsURL c) (with_collection c d))))
                log) as (d' & -> & H).
    simpl in H. destruct H as (H1 & H2 & H3 & H4 & H5 & H6 & H7 & H8 & H9).
    simpl. eexists. split; [reflexivity |]. by repeat split. }
  unfold reset, Edge_reset, bind, get. simpl. by destruct (cls d).
Qed.

Lemma delete_accepted_dec (r : Response) :
  delete_accepted r \/ ~ delete_accepted r.
Proof.
  unfold delete_accepted.
  destruct (json r !! "error") as [e|] eqn:He.
  - destruct (truthy e) eqn:Ht.
    + right. intros (_ & e' & He' & Ht'). congruence.
    + destruct (decide (status_code r = 200 \/ status_code r = 202)) as [Hs | Hs].
      * left. eauto.
      * right. by intros [? _].
  - right. by intros (_ & e' & He' & _).
Qed.

Lemma refused_accepted (r : Response) (st : St) :
  delete_accepted r -> refused r st = (Ok false, st).
Proof.
  intros (Hs & e & He & Ht). unfold refused, bind, getitem.
  replace (negb (Z.eqb (status_code r) 200) && negb (Z.eqb (status_code r) 202))
    with false by (destruct Hs as [-> | ->]; done).
  rewrite He. simpl. by rewrite Ht.
Qed.

Lemma refused_otherwise (r : Response) (st : St) :
  ~ delete_accepted r ->
  refused r st = (Ok true, st) \/ refused r st = (Raise (KeyError "error"), st).
Proof.
  intros Hn. unfold refused, bind, getitem.
  destruct (negb (Z.eqb (status_code r) 200) && negb (Z.eqb (status_code r) 202)) eqn:Hs.
  - by left.
  - destruct (json r !! "error") as [e|] eqn:He; simpl; [| by right].
    destruct (truthy e) eqn:Ht; [by left |].
    exfalso. apply Hn. split; [| eauto].
    apply andb_false_iff in Hs.
    destruct Hs as [Hs | Hs]; apply negb_false_iff, Z.eqb_eq in Hs; auto.
Qed.

Lemma refused_refused (r : Response) (st : St) :
  delete_refused r -> refused r st = (Ok true, st).
Proof.
  intros H. unfold refused, bind, getitem.
  destruct (negb (Z.eqb (status_code r) 200) && negb (Z.eqb (status_code r) 202)) eqn:Hs;
    [done |].
  destruct H as [[H1 H2] | (e & He & Ht)].
  - apply andb_false_iff in Hs.
    destruct Hs as [Hs | Hs]; apply negb_false_iff, Z.eqb_eq in Hs; done.
  - rewrite He. simpl. by rewrite Ht.
Qed.

Lemma delete_sends {order : KeyOrder}
  (server : list Request -> Request -> Response)
  (d : Doc) (log : list Request) (u : string) :
  URL d = Some u ->
  Document_delete server {| self := d; sent := log |}
  = (bad <- refused (server log (DELETE_of u)) ;;
     if bad : bool then
       m <- getitem (json (server log (DELETE_of u))) "errorMessage" ;;
       raise (DeletionError m (Some (json (server log (DELETE_of u)))))
     else
       d <- get ;;
       reset (collection d) ∅ ;;
       upd (with_modified true))%py
      {| self := d; sent := (log ++ [DELETE_of u])%list |}.
Proof.
  intros HU. unfold Document_delete, bind at 1, get at 1. simpl. rewrite HU.
  unfold bind at 1, http at 1. reflexivity.
Qed.

Lemma delete_accepted_eq {order : KeyOrder}
  (server : list Request -> Request -> Response)
  (d : Doc) (log : list Request) (u : string) :
  URL d = Some u ->
  delete_accepted (server log (DELETE_of u)) ->
  exists d', Document_delete server {| self := d; sent := log |}
             = (Ok tt, {| self := d'; sent := (log ++ [DELETE_of u])%list |})
             /\ fresh (collection d) d d'.
Proof.
  intros HU Hacc. rewrite (delete_sends server d log u HU).
  unfold bind at 1. rewrite (refused_accepted _ _ Hacc).
  unfold bind at 1, get at 1. simpl. unfold bind at 1.
  destruct (reset_empty (collection d) d (log ++ [DELETE_of u])%list)
    as (d' & -> & Hf).
  simpl. eexists. split; [reflexivity |].
  unfold fresh in *. simpl. tauto.
Qed.

Lemma delete_not_accepted_eq {order : KeyOrder}
  (server : list Request -> Request -> Response)
  (d : Doc) (log : list Request) (u : string) :
  URL d = Some u ->
  ~ delete_accepted (server log (DELETE_of u)) ->
  exists e, Document_delete server {| self := d; sent := log |}
            = (Raise e, {| self := d; sent := (log ++ [DELETE_of u])%list |}).
Proof.
  intros HU Hn. rewrite (delete_sends server d log u HU).
  unfold bind at 1.
  destruct (refused_otherwise _ {| self := d; sent := (log ++ [DELETE_of u])%list |} Hn)
    as [-> | ->]; [| eauto].
  unfold bind, getitem.
  destruct (json _ !! "errorMessage"); simpl; eauto.
Qed.

Lemma delete_refused_eq {order : KeyOrder}
  (server : list Request -> Request -> Response)
  (d : Doc) (log : list Request) (u : string) (m : value) :
  URL d = Some u ->
  delete_refused (server log (DELETE_of u)) ->
  json (server log (DELETE_of u)) !! "errorMessage" = Some m ->
  Document_delete server {| self := d; sent := log |}
  = (Raise (DeletionError m (Some (json (server log (DELETE_of u))))),
     {| self := d; sent := (log ++ [DELETE_of u])%list |}).
Proof.
  intros HU Href Hm. rewrite (delete_sends server d log u HU).
  unfold bind at 1. rewrite (refused_refused _ _ Href).
  unfold bind, getitem. by rewrite Hm.
Qed.

(** C6, as it holds.  Without URL, [delete] raises a [DeletionError] and
    sends nothing.  With a URL it sends one DELETE to it.  If the server
    accepts (status 200 or 202, and an error flag that is there and false)
    the call returns and the object is reset: id, revision and key are
    [None], the URL is unset, both stores are empty and [modified] is true.
    In every other case the call raises and the object is as before; when
    the server refuses (another status, or a true error flag) and gives its
    message, the exception is the [DeletionError] with that message and the
    response. *)
Theorem delete_outcomes {order : KeyOrder}
  (server : list Request -> Request -> Response)
  (d : Doc) (log : list Request) :
  let st := {| self := d; sent := log |} in
  let out := Document_delete server st in
  (URL d = None ->
   out = (Raise (DeletionError (VStr msg_delete_unsaved) None), st))
  /\ (forall u, URL d = Some u ->
      let r := server log (DELETE_of u) in
      sent out.2 = (log ++ [DELETE_of u])%list
      /\ (delete_accepted r ->
          out.1 = Ok tt
          /\ _id (self out.2) = VNone /\ _rev (self out.2) = VNone
          /\ _key (self out.2) = VNone /\ URL (self out.2) = None
          /\ _store (self out.2) = ∅ /\ _patchStore (self out.2) = ∅
          /\ modified (self out.2) = true)
      /\ (~ delete_accepted r ->
          (exists e, out.1 = Raise e) /\ self out.2 = d)
      /\ (delete_refused r ->
          forall m, json r !! "errorMessage" = Some m ->
                    out.1 = Raise (DeletionError m (Some (json r))))).
Proof.
  intros st out. subst st out. split.
  - intros HU. unfold Document_delete, bind, get. simpl. by rewrite HU.
  - intros u HU r. subst r.
    destruct (delete_accepted_dec (server log (DELETE_of u))) as [Hacc | Hn].
    + destruct (delete_accepted_eq server d log u HU Hacc) as (d' & -> & Hf).
      destruct Hf as (H1 & H2 & H3 & H4 & H5 & H6 & H7 & H8 & H9 & H10).
      simpl. split; [done |].
      split; [by intros _ |]. split; [by intros Hn |].
      intros Href m Hm. exfalso.
      destruct Hacc as (Hs & e & He & Ht).
      destruct Href as [[Ha Hb] | (e' & He' & Ht')]; [destruct Hs; done |].
      congruence.
    + destruct (delete_not_accepted_eq server d log u HU Hn) as (e & He).
      split; [by rewrite He |]. split; [done |].
      split; [intros _; rewrite He; eauto |].
      intros Href m Hm.
      by rewrite (delete_refused_eq server d log u m HU Href Hm).
Qed.

Lemma delete_outcomes_witness :
  (Document_delete accepting {| self := unsaved users ∅; sent := [] |}).1
  = Raise (DeletionError (VStr msg_delete_unsaved) None)
  /\ _id (self (Document_delete deleting {| self := saved_user; sent := [] |}).2) = VNone
  /\ self (Document_delete accepting {| self := saved_user; sent := [] |}).2 = saved_user
  /\ (Document_delete refusing {| self := saved_user; sent := [] |}).1
     = Raise (DeletionError (VStr "document not found") (Some (json not_found))).
Proof.
  split; [| split; [| split]].
  - by rewrite (proj1 (delete_outcomes accepting (unsaved users ∅) []) eq_refl).
  - destruct (proj2 (delete_outcomes deleting saved_user []) _ eq_refl)
      as (_ & H & _).
    apply H. split; [by left |]. exists (VBool false). by vm_compute.
  - destruct (proj2 (delete_outcomes accepting saved_user []) _ eq_refl)
      as (_ & _ & H & _).
    apply H. intros [[H1 | H1] _]; vm_compute in H1; discriminate.
  - destruct (proj2 (delete_outcomes refusing saved_user []) _ eq_refl)
      as (_ & _ & _ & H).
    apply H.
    + left. split; vm_compute; discriminate.
    + by vm_compute.
Defined.

(** C6, as stated, fails: a refusal that carries no message does not raise
    a [DeletionError]; reading the message raises [KeyError]. *)
Lemma delete_refused_without_message :
  let out := Document_delete missing {| self := saved_user; sent := [] |} in
  delete_refused bare_404
  /\ out.1 = Raise (KeyError "errorMessage")
  /\ (forall m data, out.1 <> Raise (DeletionError m data))
  /\ self out.2 = saved_user.
Proof.
  split; [left; split; vm_compute; discriminate |].
  vm_compute. repeat split; try reflexivity. discriminate.
Qed.

(** ** The identity attributes *)

Lemma Document_setPrivates_all (fieldDict : dict) (d : Doc) (i r k : value) :
  fieldDict !! "_id" = Some i ->
  fieldDict !! "_rev" = Some r ->
  fieldDict !! "_key" = Some k ->
  Document_setPrivates fieldDict d
  = (delete "_key" (delete "_rev" (delete "_id" fieldDict)),
     with_key k (with_rev r
       (with_URL (Some (documentsURL d +:+ "/" +:+ py_str i)) (with_id i d)))).
Proof.
  intros Hi Hr Hk. unfold Document_setPrivates. rewrite Hi.
  rewrite lookup_delete_ne by done. rewrite Hr.
  rewrite !lookup_delete_ne by done. by rewrite Hk.
Qed.

Lemma Document_setPrivates_missing (fieldDict : dict) (d : Doc) :
  fieldDict !! "_id" = None \/ fieldDict !! "_rev" = None
  \/ fieldDict !! "_key" = None ->
  let d' := (Document_setPrivates fieldDict d).2 in
  _id d' = VNone /\ _rev d' = VNone /\ _key d' = VNone /\ URL d' = None.
Proof.
  intros H. unfold Document_setPrivates.
  destruct (fieldDict !! "_id") as [i|] eqn:Hi; [| done].
  rewrite lookup_delete_ne by done.
  destruct (fieldDict !! "_rev") as [r|] eqn:Hr; [| done].
  rewrite !lookup_delete_ne by done.
  destruct (fieldDict !! "_key") as [k|] eqn:Hk; [| done].
  destruct H as [H | [H | H]]; congruence.
Qed.

Lemma Document_setPrivates_dict (fieldDict : dict) (d : Doc) :
  (Document_setPrivates fieldDict d).1
  = foldl (fun m k => delete k m) fieldDict (deleted_privates fieldDict).
Proof.
  unfold Document_setPrivates, deleted_privates.
  destruct (fieldDict !! "_id") as [i|] eqn:Hi; [| done].
  rewrite lookup_delete_ne by done.
  destruct (fieldDict !! "_rev") as [r|] eqn:Hr; [| done].
  rewrite !lookup_delete_ne by done.
  by destruct (fieldDict !! "_key") as [k|] eqn:Hk.
Qed.

Lemma Document_setPrivates_consistent (fieldDict : dict) (d : Doc) :
  no_null_privates fieldDict ->
  identity_consistent (Document_setPrivates fieldDict d).2.
Proof.
  intros (Hi & Hr & Hk).
  destruct (fieldDict !! "_id") as [i|] eqn:Ei;
    [| left; apply Document_setPrivates_missing; auto].
  destruct (fieldDict !! "_rev") as [r|] eqn:Er;
    [| left; apply Document_setPrivates_missing; auto].
  destruct (fieldDict !! "_key") as [k|] eqn:Ek;
    [| left; apply Document_setPrivates_missing; auto].
  rewrite (Document_setPrivates_all _ _ _ _ _ Ei Er Ek). right. simpl.
  repeat split; congruence.
Qed.

Lemma setPrivates_consistent (fieldDict : dict) (d : Doc) :
  no_null_privates fieldDict ->
  identity_consistent (setPrivates fieldDict d).2.
Proof.
  intros H. unfold setPrivates, Edge_setPrivates.
  destruct (cls d); by apply Document_setPrivates_consistent.
Qed.

Lemma no_null_privates_empty : no_null_privates ∅.
Proof. unfold no_null_privates. by rewrite !lookup_empty. Qed.

Lemma keeps_Pid_upd (f : Doc -> Doc) : same_identity f -> keeps Pid (upd f).
Proof.
  intros Hf. apply keeps_upd. intros d log. unfold Pid, identity_consistent.
  simpl. destruct (Hf d) as (-> & -> & -> & ->). done.
Qed.

Lemma keeps_Pid_http server rq : keeps Pid (http server rq).
Proof. by intros [d log] H. Qed.

Lemma keeps_setitem k v : keeps Pid (Document___setitem__ k v).
Proof.
  unfold Document___setitem__.
  repeat (first [ apply keeps_Pid_upd; by intros ? | keeps_step ]).
  destruct (URL _); repeat (first [ apply keeps_Pid_upd; by intros ? | keeps_step ]).
Qed.

Lemma keeps_set {order : KeyOrder} (fieldDict : dict) :
  no_null_privates fieldDict -> keeps Pid (set_ fieldDict).
Proof.
  intros Hn [d log] _. unfold set_, Document_set. simpl.
  pose proof (setPrivates_consistent fieldDict d Hn) as Hc.
  destruct (setPrivates fieldDict d) as [fd' d']. simpl in Hc.
  match goal with
  | |- context [ (if ?b then ?m1 else ?m2) ?st ] =>
      assert (Hk : keeps Pid (if b then m1 else m2));
      [| specialize (Hk st Hc); destruct ((if b then m1 else m2) st); exact Hk ]
  end.
  apply keeps_if.
  - apply keeps_for_each. intros k.
    apply keeps_bind; [apply keeps_getitem | intros v; apply keeps_setitem].
  - apply keeps_Pid_upd. by intros ?.
Qed.

Lemma keeps_reset {order : KeyOrder} (c : Collection) (fieldDict : dict) :
  no_null_privates fieldDict -> keeps Pid (reset c fieldDict).
Proof.
  intros Hn. unfold reset, Edge_reset.
  apply keeps_bind; [apply keeps_get |]. intros d.
  assert (keeps Pid (Document_reset c fieldDict)); [| by destruct (cls d)].
  unfold Document_reset.
  repeat (first [ apply keeps_Pid_upd; by intros ? | by apply keeps_set
                | keeps_step ]).
Qed.

Lemma accepted_pure (a b : Z) (r : Response) (st : St) :
  exists x, accepted a b r st = (x, st).
Proof.
  unfold accepted, bind, getitem.
  destruct (_ || _); [| eauto].
  destruct (json r !! "error"); simpl; eauto.
Qed.

Lemma consistent_with_modified (b : bool) (d : Doc) :
  identity_consistent d -> identity_consistent (with_modified b d).
Proof. done. Qed.

Lemma consistent_with_rev (v : value) (d : Doc) :
  v <> VNone -> URL d <> None ->
  identity_consistent d -> identity_consistent (with_rev v d).
Proof.
  intros Hv HU [(_ & _ & _ & H) | (H1 & _ & H3 & H4)]; [done |].
  right. done.
Qed.

(** The tail of [save] and [patch] on a document that has a URL: read the
    new revision or raise. *)
Lemma new_rev_consistent (r : Response) (st st' : St) (x : result unit) :
  no_null_privates (json r) ->
  URL (self st) <> None -> identity_consistent (self st) ->
  (rev <- getitem (json r) "_rev" ;; upd (with_rev rev))%py st = (x, st') ->
  identity_consistent (self st').
Proof.
  intros (_ & Hr & _) HU Hd. unfold bind, getitem.
  destruct (json r !! "_rev") as [v|] eqn:Hv; simpl; intros [= <- <-]; [| done].
  apply consistent_with_rev; [congruence | done | done].
Qed.

Lemma keeps_Document_save server (docArgs : dict) :
  server_no_null server -> keeps Pid (Document_save server docArgs).
Proof.
  intros Hs [d log] Hd. unfold Pid in *. simpl in Hd.
  unfold Document_save, bind at 1, get at 1. simpl.
  destruct (modified d); [| done].
  destruct (on_save (_validation (collection d))).
  { unfold bind at 1. by rewrite call_validate_logErrors. }
  unfold bind at 1, ret at 1. unfold bind at 1, get at 1. simpl.
  destruct (URL d) as [u|] eqn:HU.
  - unfold bind at 1. unfold bind at 1, http at 1, ret at 1. simpl.
    set (r := server log _). set (st1 := {| self := d; sent := _ |}).
    unfold bind at 1.
    destruct (accepted_pure 201 202 r st1) as (x & ->).
    destruct x as [[|]|e]; [| | done].
    + unfold bind at 1.
      destruct ((rev <- getitem (json r) "_rev" ;; upd (with_rev rev))%py st1)
        as [[[]|e] st2] eqn:E;
        apply new_rev_consistent in E; simpl; try done;
        subst st1; simpl; first [apply Hs | congruence].
    + unfold bind, getitem. by destruct (json r !! "errorMessage").
  - unfold bind at 1. unfold bind at 1, http at 1, ret at 1. simpl.
    set (r := server log _). set (st1 := {| self := d; sent := _ |}).
    unfold bind at 1.
    destruct (accepted_pure 201 202 r st1) as (x & ->).
    destruct x as [[|]|e]; [| | done].
    + unfold bind, upd. simpl. apply consistent_with_modified.
      apply setPrivates_consistent, Hs.
    + unfold bind, getitem. by destruct (json r !! "errorMessage").
Qed.

Lemma keeps_Document_patch server (keepNull : value) (docArgs : dict) :
  server_no_null server -> keeps Pid (Document_patch server keepNull docArgs).
Proof.
  intros Hs [d log] Hd. unfold Pid in *. simpl in Hd.
  unfold Document_patch, bind at 1, get at 1. simpl.
  destruct (on_save (_validation (collection d))).
  { unfold bind at 1. by rewrite call_validate_logErrors. }
  unfold bind at 1, ret at 1. unfold bind at 1, get at 1. simpl.
  destruct (URL d) as [u|] eqn:HU; [| done].
  destruct (Nat.ltb 0 (size (_patchStore d))); [| done].
  unfold bind at 1, http at 1. simpl.
  set (r := server log _). set (st1 := {| self := d; sent := _ |}).
  unfold bind at 1.
  destruct (accepted_pure 201 202 r st1) as (x & ->).
  destruct x as [[|]|e]; [| | done].
  - unfold bind at 1.
    destruct ((rev <- getitem (json r) "_rev" ;; upd (with_rev rev))%py st1)
      as [[[]|e] st2] eqn:E;
      apply new_rev_consistent in E; simpl; try done;
      subst st1; simpl; first [apply Hs | congruence].
  - unfold bind, getitem. by destruct (json r !! "errorMessage").
Qed.

Lemma keeps_resolve_vertex P g msg x : keeps P (resolve_vertex g msg x).
Proof.
  unfold resolve_vertex. destruct x as [v|o].
  - apply keeps_bind; [apply keeps_lookup_global |]. intros _.
    destruct v; keeps_step.
  - case_bool_decide; repeat keeps_step.
Qed.

Lemma keeps_Edge_save server (f t : vertex) (edgeArgs : dict) :
  server_no_null server -> keeps Pid (Edge_save server f t edgeArgs).
Proof.
  intros Hs. unfold Edge_save.
  repeat (first [ apply keeps_Pid_upd; by intros ?
                | apply keeps_resolve_vertex
                | by apply keeps_Document_save
                | keeps_step ]).
Qed.

Lemma keeps_save server (docArgs : dict) :
  server_no_null server -> keeps Pid (save server docArgs).
Proof.
  intros Hs. unfold save. apply keeps_bind; [apply keeps_get |]. intros d.
  destruct (cls d); [by apply keeps_Document_save | by apply keeps_Edge_save].
Qed.

Lemma keeps_forceSave server (docArgs : dict) :
  server_no_null server -> keeps Pid (Document_forceSave server docArgs).
Proof.
  intros Hs. unfold Document_forceSave.
  apply keeps_bind; [apply keeps_Pid_upd; by intros ? |].
  intros _. by apply keeps_save.
Qed.

Lemma keeps_saveCopy {order : KeyOrder} server :
  server_no_null server -> keeps Pid (Document_saveCopy server).
Proof.
  intros Hs. unfold Document_saveCopy.
  repeat (first [ apply keeps_reset; apply no_null_privates_empty
                | by apply keeps_save
                | keeps_step ]).
Qed.

Lemma keeps_refused P r : keeps P (refused r).
Proof. unfold refused. repeat keeps_step. Qed.

Lemma keeps_delete {order : KeyOrder} server :
  server_no_null server -> keeps Pid (Document_delete server).
Proof.
  intros Hs. unfold Document_delete.
  apply keeps_bind; [apply keeps_get |]. intros d.
  destruct (URL d); [| apply keeps_raise].
  repeat (first [ apply keeps_Pid_http
                | apply keeps_refused
                | apply keeps_reset; apply no_null_privates_empty
                | apply keeps_Pid_upd; by intros ?
                | keeps_step ]).
Qed.

Lemma run_op_consistent {order : KeyOrder} server (o : op) (st : St) :
  server_no_null server -> op_no_null o -> Pid st -> Pid (run_op server o st).
Proof.
  intros Hs Ho H. destruct o; simpl in *.
  - by apply keeps_reset.
  - by apply keeps_set.
  - by apply keeps_save.
  - by apply keeps_Edge_save.
  - by apply keeps_forceSave.
  - by apply keeps_saveCopy.
  - by apply keeps_Document_patch.
  - by apply keeps_delete.
  - by apply keeps_setitem.
Qed.

(** C7, as it holds.  Provided no reserved key ever carries [None], in the
    dictionaries given to the constructor, to [reset] and to [set] and in
    the responses of the server, a document is left by its constructor and
    by every operation after it with id, revision, key and URL either all
    unset or all set. *)
Theorem identity_all_or_none {order : KeyOrder}
  (server : list Request -> Request -> Response)
  (c : pyclass) (col : Collection) (jsonFieldInit : dict)
  (log : list Request) (ops : list op) :
  server_no_null server ->
  no_null_privates jsonFieldInit ->
  Forall op_no_null ops ->
  identity_consistent (self (run_ops server ops (new c col jsonFieldInit log).2)).
Proof.
  intros Hs Hi Hops.
  assert (H0 : Pid (new c col jsonFieldInit log).2).
  { unfold new. apply keeps_reset; [done |]. left. done. }
  revert H0. generalize (new c col jsonFieldInit log).2.
  induction Hops as [|o ops Ho Hops IH]; intros st H; [done |].
  simpl. apply IH. by apply run_op_consistent.
Qed.

Lemma accepting_no_null : server_no_null accepting.
Proof. intros log rq. repeat split; by vm_compute. Qed.

Lemma server_fields_no_null : no_null_privates server_fields.
Proof. repeat split; by vm_compute. Qed.

Lemma identity_all_or_none_witness :
  identity_consistent
    (self (run_ops accepting
             [Op_setitem "age" (VInt 5); Op_save ∅; Op_set server_fields;
              Op_patch (VBool true) ∅; Op_saveCopy; Op_delete]
             (new Document users {[ "name" := VStr "a" ]} []).2)).
Proof.
  apply identity_all_or_none.
  - exact accepting_no_null.
  - repeat split; by vm_compute.
  - repeat (apply List.Forall_cons;
            [first [exact I | exact server_fields_no_null] |]).
    apply List.Forall_nil.
Defined.

(** C7, as stated, fails: the constructor, given a dictionary whose [_id]
    is [None], leaves a document with a URL, a revision and a key, and no
    id. *)
Lemma identity_null_id :
  new Document users null_id_fields [] = (Ok tt, {| self := null_id_doc; sent := [] |})
  /\ ~ identity_consistent null_id_doc.
Proof.
  split; [vm_compute; reflexivity |].
  intros [(_ & H & _) | (H & _)]; [discriminate H | by apply H].
Qed.

(** ** Creating a resource; saveCopy *)

Lemma save_accepted_dec (r : Response) :
  save_accepted r \/ ~ save_accepted r.
Proof.
  unfold save_accepted.
  destruct (json r !! "error") as [e|] eqn:He.
  - destruct (truthy e) eqn:Ht.
    + right. intros (_ & e' & He' & Ht'). congruence.
    + destruct (decide (status_code r = 201 \/ status_code r = 202)) as [Hs | Hs].
      * left. eauto.
      * right. by intros [? _].
  - right. by intros (_ & e' & He' & _).
Qed.

Lemma accepted_yes (r : Response) (st : St) :
  save_accepted r -> accepted 201 202 r st = (Ok true, st).
Proof.
  intros (Hs & e & He & Ht). unfold accepted, bind, getitem.
  replace (Z.eqb (status_code r) 201 || Z.eqb (status_code r) 202)
    with true by (destruct Hs as [-> | ->]; done).
  rewrite He. simpl. by rewrite Ht.
Qed.

Lemma accepted_no (r : Response) (st : St) :
  ~ save_accepted r ->
  accepted 201 202 r st = (Ok false, st)
  \/ accepted 201 202 r st = (Raise (KeyError "error"), st).
Proof.
  intros Hn. unfold accepted, bind, getitem.
  destruct (Z.eqb (status_code r) 201 || Z.eqb (status_code r) 202) eqn:Hs;
    [| by left].
  destruct (json r !! "error") as [e|] eqn:He; simpl; [| by right].
  destruct (truthy e) eqn:Ht; [by left |].
  exfalso. apply Hn. split; [| eauto].
  apply orb_true_iff in Hs. destruct Hs as [Hs | Hs]; apply Z.eqb_eq in Hs; auto.
Qed.

Lemma Document_save_create
  (server : list Request -> Request -> Response)
  (d : Doc) (log : list Request) (docArgs : dict) :
  modified d = true ->
  on_save (_validation (collection d)) = false ->
  URL d = None ->
  let r := server log (POST_of d docArgs) in
  let log' := (log ++ [POST_of d docArgs])%list in
  (save_accepted r ->
   Document_save server docArgs {| self := d; sent := log |}
   = (Ok tt, {| self := with_modified false (setPrivates (json r) d).2;
                sent := log' |}))
  /\ (~ save_accepted r ->
      exists e, Document_save server docArgs {| self := d; sent := log |}
                = (Raise e, {| self := d; sent := log' |})).
Proof.
  intros Hm Hon HU r log'.
  assert (E : Document_save server docArgs {| self := d; sent := log |}
              = (ok <- accepted 201 202 r ;;
                 (if ok : bool
                  then upd (fun d => (setPrivates (json r) d).2)
                  else m <- getitem (json r) "errorMessage" ;;
                       raise (CreationError m (json r))) ;;
                 upd (with_modified false))%py
                  {| self := d; sent := log' |}).
  { unfold Document_save, bind at 1, get at 1. simpl. rewrite Hm, Hon.
    unfold bind at 1, ret at 1. unfold bind at 1, get at 1. simpl. rewrite HU.
    unfold bind at 1. unfold bind at 1, http at 1, ret at 1. reflexivity. }
  rewrite E. split.
  - intros Hacc. unfold bind at 1. by rewrite (accepted_yes _ _ Hacc).
  - intros Hn. unfold bind at 1.
    destruct (accepted_no r {| self := d; sent := log' |} Hn) as [-> | ->];
      [| eauto].
    unfold bind, getitem. destruct (json r !! "errorMessage"); simpl; eauto.
Qed.

Lemma saveCopy_resets {order : KeyOrder}
  (server : list Request -> Request -> Response)
  (d : Doc) (log : list Request) :
  cls d = Document ->
  exists d1, fresh (collection d) d d1
    /\ POST_of d1 ∅ = POST_copy d
    /\ Document_saveCopy server {| self := d; sent := log |}
       = (Document_save server ∅ ;; d' <- get ;; ret (_key d, _key d'))%py
           {| self := d1; sent := log |}.
Proof.
  intros Hc.
  destruct (reset_empty (collection d) d log) as (d1 & E & Hf).
  exists d1. split; [done |].
  destruct Hf as (H1 & H2 & H3 & H4 & H5 & _).
  split.
  { unfold POST_of, POST_copy. by rewrite H2, H3, H4. }
  unfold Document_saveCopy, bind at 1, get at 1. simpl.
  unfold bind at 1. rewrite E.
  unfold bind at 2. unfold save, bind at 2, get at 1. simpl.
  unfold bind at 1 3. simpl. by rewrite H1, Hc.
Qed.

(** [saveCopy] on an instance of [Document] whose collection does not
    validate on save. *)
Lemma saveCopy_Document {order : KeyOrder}
  (server : list Request -> Request -> Response)
  (d : Doc) (log : list Request) :
  cls d = Document ->
  on_save (_validation (collection d)) = false ->
  let r := server log (POST_copy d) in
  let out := Document_saveCopy server {| self := d; sent := log |} in
  sent out.2 = (log ++ [POST_copy d])%list
  /\ _store (self out.2) = ∅ /\ _patchStore (self out.2) = ∅
  /\ (save_accepted r ->
      out.1 = Ok (_key d, _key (self out.2))
      /\ modified (self out.2) = false
      /\ forall i rv k,
          json r !! "_id" = Some i -> json r !! "_rev" = Some rv ->
          json r !! "_key" = Some k ->
          out.1 = Ok (_key d, k)
          /\ _id (self out.2) = i /\ _rev (self out.2) = rv
          /\ _key (self out.2) = k
          /\ URL (self out.2)
             = Some (col_documentsURL (collection d) +:+ "/" +:+ py_str i))
  /\ (~ save_accepted r ->
      (exists e, out.1 = Raise e)
      /\ _id (self out.2) = VNone /\ _rev (self out.2) = VNone
      /\ _key (self out.2) = VNone /\ URL (self out.2) = None).
Proof.
  intros Hc Hon r out. subst r out.
  destruct (saveCopy_resets server d log Hc) as (d1 & Hf & Hrq & ->).
  destruct Hf as (H1 & H2 & H3 & H4 & H5 & H6 & H7 & H8 & H9 & H10).
  assert (Hon1 : on_save (_validation (collection d1)) = false) by by rewrite H2.
  destruct (Document_save_create server d1 log ∅ H10 Hon1 H9) as [Hyes Hno].
  rewrite Hrq in Hyes, Hno.
  destruct (setPrivates_frame (json (server log (POST_copy d))) d1)
    as (F1 & F2 & F3 & F4 & F5 & F6).
  simpl in F1, F2, F3, F4, F5, F6.
  destruct (save_accepted_dec (server log (POST_copy d))) as [Hacc | Hn].
  - unfold bind, get, ret. rewrite (Hyes Hacc). simpl.
    split; [done |]. split; [congruence |]. split; [congruence |].
    split; [| done]. intros _. split; [done |]. split; [done |].
    intros i rv k Hi Hr Hk.
    unfold setPrivates. rewrite H1, Hc.
    rewrite (Document_setPrivates_all _ _ _ _ _ Hi Hr Hk). simpl.
    by rewrite H3.
  - unfold bind, get, ret. destruct (Hno Hn) as (e & ->). simpl.
    split; [done |]. split; [done |]. split; [done |].
    split; [done |]. intros _. split; [eauto | done].
Qed.

Lemma saveCopy_raises {order : KeyOrder}
  (server : list Request -> Request -> Response)
  (d : Doc) (log : list Request) :
  cls d = Edge \/ on_save (_validation (collection d)) = true ->
  let out := Document_saveCopy server {| self := d; sent := log |} in
  (exists e, out.1 = Raise e)
  /\ sent out.2 = log
  /\ _store (self out.2) = ∅ /\ _patchStore (self out.2) = ∅.
Proof.
  intros H out. subst out.
  destruct (reset_empty (collection d) d log) as (d1 & E & Hf).
  destruct Hf as (H1 & H2 & H3 & H4 & H5 & H6 & H7 & H8 & H9 & H10).
  assert (Hs : exists e, save server ∅ {| self := d1; sent := log |}
                         = (Raise e, {| self := d1; sent := log |})).
  { unfold save, bind at 1, get at 1. simpl. rewrite H1.
    destruct (cls d) eqn:Hc.
    - destruct H as [H | H]; [done |]. eexists.
      apply Document_save_validate_raises; [done | by rewrite H2].
    - eexists. unfold kw_vertex. rewrite !lookup_empty.
      by apply Edge_save_first_time. }
  destruct Hs as (e & Hs).
  unfold Document_saveCopy, bind, get, ret. cbn [self].
  rewrite E, Hs. simpl. eauto.
Qed.

(** C8, as it holds.  [saveCopy] resets the document, so that both stores
    are empty whatever follows.  On an instance of [Document] whose
    collection does not validate on save it then sends one request, a POST
    to the collection with the empty store as payload; when the server
    accepts, the call returns the pair of the key held before the call and
    the key held after it, the identity is the one of the response and
    [modified] is false; when the server does not accept, the call raises
    and leaves the document without identity.  On any document, when the
    call returns, that POST was sent and accepted and the value returned is
    that pair. *)
Theorem saveCopy_outcomes {order : KeyOrder}
  (server : list Request -> Request -> Response)
  (d : Doc) (log : list Request) :
  let r := server log (POST_copy d) in
  let out := Document_saveCopy server {| self := d; sent := log |} in
  _store (self out.2) = ∅ /\ _patchStore (self out.2) = ∅
  /\ (forall p, out.1 = Ok p ->
      p = (_key d, _key (self out.2))
      /\ sent out.2 = (log ++ [POST_copy d])%list
      /\ save_accepted r)
  /\ (cls d = Document -> on_save (_validation (collection d)) = false ->
      sent out.2 = (log ++ [POST_copy d])%list
      /\ (save_accepted r ->
          out.1 = Ok (_key d, _key (self out.2))
          /\ modified (self out.2) = false
          /\ forall i rv k,
              json r !! "_id" = Some i -> json r !! "_rev" = Some rv ->
              json r !! "_key" = Some k ->
              out.1 = Ok (_key d, k)
              /\ _id (self out.2) = i /\ _rev (self out.2) = rv
              /\ _key (self out.2) = k
              /\ URL (self out.2)
                 = Some (col_documentsURL (collection d) +:+ "/" +:+ py_str i))
      /\ (~ save_accepted r ->
          (exists e, out.1 = Raise e)
          /\ _id (self out.2) = VNone /\ _rev (self out.2) = VNone
          /\ _key (self out.2) = VNone /\ URL (self out.2) = None)).
Proof.
  intros r out.
  destruct (cls d) eqn:Hc; [destruct (on_save (_validation (collection d))) eqn:Hon |].
  - destruct (saveCopy_raises server d log (or_intror Hon)) as ((e & He) & _ & Hs & Hp).
    fold out in He, Hs, Hp.
    split; [done |]. split; [done |].
    split; [intros p Hp'; congruence | done].
  - destruct (saveCopy_Document server d log Hc Hon) as (Hl & Hs & Hp & Hyes & Hno).
    fold r in Hyes, Hno. fold out in Hl, Hs, Hp, Hyes, Hno.
    split; [done |]. split; [done |]. split.
    + intros p Hp'.
      destruct (save_accepted_dec r) as [Hacc | Hn].
      * destruct (Hyes Hacc) as (Hr & _). split; [congruence | done].
      * destruct (Hno Hn) as ((e & He) & _). congruence.
    + intros _ _. done.
  - destruct (saveCopy_raises server d log (or_introl Hc)) as ((e & He) & _ & Hs & Hp).
    fold out in He, Hs, Hp.
    split; [done |]. split; [done |].
    split; [intros p Hp'; congruence | done].
Qed.

Lemma saveCopy_outcomes_witness :
  let out := Document_saveCopy copying {| self := saved_user; sent := [] |} in
  _store saved_user = {[ "name" := VStr "a" ]}
  /\ _store (self out.2) = ∅
  /\ out.1 = Ok (VStr "1", VStr "2").
Proof.
  intros out.
  destruct (saveCopy_outcomes copying saved_user []) as (Hs & _ & _ & H).
  destruct (H eq_refl eq_refl) as (_ & Hacc & _).
  split; [reflexivity |]. split; [exact Hs |].
  assert (Ha : save_accepted copied).
  { split; [by left |]. exists (VBool false). by vm_compute. }
  destruct (Hacc Ha) as (_ & _ & Hk).
  apply (Hk (VStr "users/2") (VStr "1") (VStr "2")); by vm_compute.
Defined.

(** C8, as stated, fails: on a persisted edge [saveCopy] empties the stores,
    and the save that follows raises for want of endpoints; nothing is
    sent and no pair is returned. *)
Lemma saveCopy_on_saved_edge :
  let out := Document_saveCopy accepting {| self := saved_edge; sent := [] |} in
  URL saved_edge <> None
  /\ _store saved_edge = {[ "since" := VInt 2014 ]}
  /\ out.1 = Raise (ValueError msg_edge_first_save)
  /\ sent out.2 = []
  /\ _store (self out.2) = ∅.
Proof.
  split; [discriminate |]. split; [reflexivity |].
  vm_compute. repeat split; reflexivity.
Qed.

(** ** What set does to the dictionary it is given *)

Lemma setPrivates_dict (fieldDict : dict) (d : Doc) :
  (setPrivates fieldDict d).1
  = foldl (fun m k => delete k m) fieldDict (deleted_privates fieldDict).
Proof.
  unfold setPrivates, Edge_setPrivates.
  destruct (cls d); apply Document_setPrivates_dict.
Qed.

Lemma foldl_write_union (l : list (string * value)) (s : dict) :
  NoDup l.*1 -> foldl write s l = list_to_map l ∪ s.
Proof.
  revert s. induction l as [|[k v] l IH]; intros s Hnd.
  - simpl. by rewrite (left_id_L ∅ (∪)).
  - rewrite fmap_cons in Hnd. apply NoDup_cons in Hnd as [Hk Hnd].
    cbn [foldl list_to_map foldr]. rewrite (IH _ Hnd). unfold write at 1.
    cbn [fst snd]. rewrite <- insert_union_l. symmetry.
    apply insert_union_r. by apply not_elem_of_list_to_map_1.
Qed.

Lemma for_each_setitem_store (l : list (string * value)) (d : Doc)
      (log : list Request) (st' : St) :
  for_each l (fun kv => Document___setitem__ kv.1 kv.2) {| self := d; sent := log |}
  = (Ok tt, st') ->
  _store (self st') = foldl write (_store d) l.
Proof.
  revert d. induction l as [|[k v] l IH]; intros d; simpl.
  - by intros [= <-].
  - unfold bind. simpl.
    destruct (setitem_cases d k v) as [Hacc | (e & Hon & Hv)].
    + rewrite (setitem_accepted _ _ _ _ Hacc). intros H.
      apply IH in H. rewrite H. simpl. by destruct (URL d).
    + by rewrite (setitem_refused _ _ _ _ _ Hon Hv).
Qed.

Lemma for_each_setitem_accepted (l : list (string * value)) (d : Doc)
      (log : list Request) :
  (forall k v, (k, v) ∈ l -> field_accepted d k v) ->
  exists st', for_each l (fun kv => Document___setitem__ kv.1 kv.2)
                {| self := d; sent := log |} = (Ok tt, st').
Proof.
  revert d. induction l as [|[k v] l IH]; intros d Hall; simpl; [eauto |].
  unfold bind. simpl.
  rewrite (setitem_accepted d log k v) by (apply Hall; left).
  apply IH. intros k' v' Hin.
  assert (Hacc : field_accepted d k' v') by (apply Hall; by right).
  unfold field_accepted in *. simpl. by destruct (URL d).
Qed.

(** The dictionary that [set] leaves behind, the outcome of [set], and the
    store it leaves. *)
Lemma Document_set_store {order : KeyOrder} (fieldDict : dict) (d : Doc) (log : list Request) :
  let out := Document_set fieldDict {| self := d; sent := log |} in
  out.1.2 = (setPrivates fieldDict d).1
  /\ (out.1.1 = Ok tt -> _store (self out.2) = out.1.2 ∪ _store d)
  /\ ((forall k v, out.1.2 !! k = Some v -> field_accepted d k v) ->
      out.1.1 = Ok tt).
Proof.
  unfold Document_set. simpl.
  destruct (setPrivates_frame fieldDict d) as (_ & Hc & _ & Hs & _).
  destruct (setPrivates fieldDict d) as [fd' d']. simpl in *.
  destruct (on_set (_validation (collection d'))) eqn:Hon.
  - rewrite (for_each_keys fd' Document___setitem__).
    destruct (for_each _ _ _) as [r st'] eqn:E. simpl.
    split; [done |]. split.
    + intros ->. apply for_each_setitem_store in E. rewrite E.
      rewrite foldl_write_union by (rewrite items_of_fst; apply NoDup_keys).
      by rewrite list_to_map_items_of_keys, Hs.
    + intros Hall.
      destruct (for_each_setitem_accepted (items_of fd' (keys fd')) d' log)
        as (st2 & E2).
      { intros k v Hin. apply elem_of_items_of_keys in Hin.
        specialize (Hall k v Hin). unfold field_accepted in *.
        by rewrite Hc. }
      congruence.
  - simpl. by rewrite Hs.
Qed.

Lemma setitem_other_field (d : Doc) (log : list Request) (k k' : string) (v : value) :
  k' <> k ->
  _store (self (Document___setitem__ k v {| self := d; sent := log |}).2) !! k'
  = _store d !! k'.
Proof.
  intros Hne.
  destruct (setitem_cases d k v) as [Hacc | (e & Hon & Hv)].
  - rewrite (setitem_accepted _ _ _ _ Hacc). simpl.
    destruct (URL d); simpl; by rewrite lookup_insert_ne.
  - by rewrite (setitem_refused _ _ _ _ _ Hon Hv).
Qed.

(** A run of assignments, however it ends, leaves alone the fields it does
    not name. *)
Lemma for_each_setitem_other (l : list (string * value)) (st : St) (k' : string) :
  k' ∉ l.*1 ->
  _store (self (for_each l (fun kv => Document___setitem__ kv.1 kv.2) st).2) !! k'
  = _store (self st) !! k'.
Proof.
  revert st. induction l as [|[k v] l IH]; intros st Hk'; [done |].
  rewrite fmap_cons in Hk'. apply not_elem_of_cons in Hk' as [Hne Hk'].
  simpl. unfold bind.
  pose proof (setitem_other_field (self st) (sent st) k k' v Hne) as H1.
  destruct st as [d log]. simpl in H1.
  destruct (Document___setitem__ k v {| self := d; sent := log |})
    as [[[]|e] st1]; simpl in *; [| done].
  by rewrite (IH st1 Hk').
Qed.

(** Whether [set] returns or raises, it writes no field that the dictionary
    it is left with does not hold. *)
Lemma Document_set_other {order : KeyOrder} (fieldDict : dict) (d : Doc)
      (log : list Request) (k' : string) :
  let out := Document_set fieldDict {| self := d; sent := log |} in
  out.1.2 !! k' = None ->
  _store (self out.2) !! k' = _store d !! k'.
Proof.
  unfold Document_set. simpl.
  destruct (setPrivates_frame fieldDict d) as (_ & Hc & _ & Hs & _).
  destruct (setPrivates fieldDict d) as [fd' d']. simpl in *.
  destruct (on_set (_validation (collection d'))) eqn:Hon.
  - rewrite (for_each_keys fd' Document___setitem__).
    pose proof (for_each_setitem_other (items_of fd' (keys fd'))
                  {| self := d'; sent := log |} k') as H.
    destruct (for_each _ _ _) as [r st'] eqn:E. simpl in *.
    intros Hk'. rewrite H, Hs; [done |].
    rewrite items_of_fst, elem_of_keys, Hk'. by intros [? ?].
  - simpl. intros Hk'. by rewrite lookup_union_r, Hs.
Qed.

(** C9, as it holds.  [set] deletes from the dictionary it is given the
    reserved keys that [setPrivates] read before it met a missing one: all
    three when all three are there, none when [_id] is missing, [_id] alone
    when [_rev] is missing, [_id] and [_rev] when only [_key] is missing;
    this whether [set] returns or raises.  A key that the dictionary no
    longer holds, a deleted reserved key among them, is not written into the
    store.  When [set] returns, what is left in the dictionary, a remaining
    reserved key included, has been written into the store; and [set]
    returns when the collection lets every remaining field through. *)
Theorem set_consumes_privates {order : KeyOrder}
  (fieldDict : dict) (d : Doc) (log : list Request) :
  let out := Document_set fieldDict {| self := d; sent := log |} in
  let rest := out.1.2 in
  rest = foldl (fun m k => delete k m) fieldDict (deleted_privates fieldDict)
  /\ (is_Some (fieldDict !! "_id") -> is_Some (fieldDict !! "_rev") ->
      is_Some (fieldDict !! "_key") ->
      rest = delete "_key" (delete "_rev" (delete "_id" fieldDict))
      /\ rest !! "_id" = None /\ rest !! "_rev" = None /\ rest !! "_key" = None
      /\ _store (self out.2) !! "_id" = _store d !! "_id"
      /\ _store (self out.2) !! "_rev" = _store d !! "_rev"
      /\ _store (self out.2) !! "_key" = _store d !! "_key")
  /\ (fieldDict !! "_id" = None -> rest = fieldDict)
  /\ (is_Some (fieldDict !! "_id") -> fieldDict !! "_rev" = None ->
      rest = delete "_id" fieldDict)
  /\ (is_Some (fieldDict !! "_id") -> is_Some (fieldDict !! "_rev") ->
      fieldDict !! "_key" = None ->
      rest = delete "_rev" (delete "_id" fieldDict))
  /\ (forall k, rest !! k = None -> _store (self out.2) !! k = _store d !! k)
  /\ (out.1.1 = Ok tt ->
      forall k v, rest !! k = Some v -> _store (self out.2) !! k = Some v)
  /\ ((forall k v, rest !! k = Some v -> field_accepted d k v) ->
      out.1.1 = Ok tt).
Proof.
  intros out rest.
  destruct (Document_set_store fieldDict d log) as (Hrest & Hstore & Hok).
  pose proof (Document_set_other fieldDict d log) as Hother.
  fold out in Hrest, Hstore, Hok, Hother. fold rest in Hrest, Hstore, Hok, Hother.
  assert (Hdel : rest = foldl (fun m k => delete k m) fieldDict
                              (deleted_privates fieldDict)).
  { rewrite Hrest. apply setPrivates_dict. }
  split; [exact Hdel |].
  unfold deleted_privates in Hdel.
  split; [| split; [| split; [| split; [| split; [| split]]]]].
  - intros [i Hi] [r Hr] [k Hk]. rewrite Hi, Hr, Hk in Hdel. simpl in Hdel.
    assert (H1 : rest !! "_id" = None).
    { rewrite Hdel, !lookup_delete_ne by done. apply lookup_delete_eq. }
    assert (H2 : rest !! "_rev" = None).
    { rewrite Hdel, lookup_delete_ne by done. apply lookup_delete_eq. }
    assert (H3 : rest !! "_key" = None).
    { rewrite Hdel. apply lookup_delete_eq. }
    split; [done |]. split; [done |]. split; [done |]. split; [done |].
    split; [by apply Hother |]. split; by apply Hother.
  - intros Hi. by rewrite Hi in Hdel.
  - intros [i Hi] Hr. by rewrite Hi, Hr in Hdel.
  - intros [i Hi] [r Hr] Hk. by rewrite Hi, Hr, Hk in Hdel.
  - exact Hother.
  - intros HOk k v Hkv. rewrite (Hstore HOk).
    by apply lookup_union_Some_l.
  - exact Hok.
Qed.

Lemma set_consumes_privates_witness :
  let out := Document_set partial_fields {| self := unsaved users ∅; sent := [] |} in
  out.1.2 = delete "_id" partial_fields
  /\ _store (self out.2) !! "_key" = Some (VStr "1")
  /\ _store (self out.2) !! "_id" = None
  /\ (Document_set server_fields {| self := unsaved users ∅; sent := [] |}).1.2
     = delete "_key" (delete "_rev" (delete "_id" server_fields)).
Proof.
  intros out.
  destruct (set_consumes_privates partial_fields (unsaved users ∅) [])
    as (_ & _ & _ & H2 & _ & H3 & H4 & H5).
  fold out in H2, H3, H4, H5.
  assert (HOk : out.1.1 = Ok tt).
  { apply H5. intros k v _. by left. }
  assert (Hr : out.1.2 = delete "_id" partial_fields).
  { apply H2; [exists (VStr "users/1") |]; by vm_compute. }
  split; [exact Hr |]. split; [| split].
  - apply (H4 HOk). rewrite Hr. by vm_compute.
  - rewrite H3; [reflexivity |]. rewrite Hr. by vm_compute.
  - destruct (set_consumes_privates server_fields (unsaved users ∅) [])
      as (_ & H & _).
    apply H; eexists; by vm_compute.
Defined.

(** C9, as stated, fails: a reserved key that remains in the dictionary is
    not written into the store when validation on set refuses it; [set]
    raises, with the dictionary already changed. *)
Lemma set_refuses_remaining_key :
  let out := Document_set id_and_key {| self := unsaved key_picky ∅; sent := [] |} in
  out.1.1 = Raise (ValidationError "_key is not a field")
  /\ out.1.2 = {[ "_key" := VStr "1" ]}
  /\ _store (self out.2) !! "_key" = None.
Proof. vm_compute. repeat split; reflexivity. Qed.

(** ** links *)

(** C10.  On an edge that has a URL, [links] raises before anything else:
    the heap, and with it both endpoints, and the request log are as
    before. *)
Theorem links_on_saved_edge
  (server : list Request -> Request -> Response)
  (w : World) (l : loc) (e : Doc)
  (fromVertice toVertice : pyobj) (edgeArgs : dict) :
  heap w !! l = Some e ->
  URL e <> None ->
  Edge_links server l fromVertice toVertice edgeArgs w
  = (Raise (AttributeError msg_edge_already_saved), w).
Proof.
  intros Hl HU. unfold Edge_links. rewrite Hl.
  by rewrite bool_decide_eq_true_2.
Qed.

Lemma links_on_saved_edge_witness :
  Edge_links accepting 0%nat (PRef 1%nat) (PRef 2%nat) ∅ small_world
  = (Raise (AttributeError msg_edge_already_saved), small_world).
Proof.
  apply (links_on_saved_edge accepting small_world 0%nat saved_edge).
  - by vm_compute.
  - discriminate.
Defined.

(** On an edge without URL, [links] does save its two endpoints first. *)
Example links_on_new_edge :
  let w := {| heap := <[0%nat := unsaved_edge]> (heap small_world);
              wire := [] |} in
  length (wire (Edge_links accepting 0%nat (PRef 1%nat) (PRef 2%nat) ∅ w).2) = 3%nat
  /\ (URL <$> heap (Edge_links accepting 0%nat (PRef 1%nat) (PRef 2%nat) ∅ w).2 !! 1%nat)
     = Some (Some "http://localhost:8529/_api/document/users/1").
Proof. by vm_compute. Qed.

(** * Further properties *)

(** ** Reading a field *)

Lemma getitem_present (d : Doc) (log : list Request) (k : string) (v : value) :
  _store d !! k = Some v ->
  Document___getitem__ k {| self := d; sent := log |}
  = (Ok v, {| self := d; sent := log |}).
Proof.
  intros H. unfold Document___getitem__, bind, get. simpl. rewrite H.
  by destruct (allow_foreign_fields _).
Qed.

(** X1.  A field that has been assigned reads back as the value assigned,
    whether or not the collection allows foreign fields, and reading
    changes nothing; the other fields read as before the assignment. *)
Theorem getitem_after_setitem
  (d : Doc) (log : list Request) (k k' : string) (v : value) :
  field_accepted d k v ->
  let st1 := (Document___setitem__ k v {| self := d; sent := log |}).2 in
  Document___getitem__ k st1 = (Ok v, st1)
  /\ (k' <> k ->
      Document___getitem__ k' st1
      = ((Document___getitem__ k' {| self := d; sent := log |}).1, st1)).
Proof.
  intros Hacc st1. subst st1. rewrite (setitem_accepted _ _ _ _ Hacc). simpl.
  split.
  - apply getitem_present. destruct (URL d); simpl; apply lookup_insert_eq.
  - intros Hne. unfold Document___getitem__, bind, get. simpl.
    destruct (URL d); simpl; rewrite lookup_insert_ne by done;
      destruct (allow_foreign_fields _); try done;
      by destruct (_store d !! k').
Qed.

Lemma getitem_after_setitem_witness :
  Document___getitem__ "age"
    (Document___setitem__ "age" (VInt 5) {| self := saved_user; sent := [] |}).2
  = (Ok (VInt 5),
     (Document___setitem__ "age" (VInt 5) {| self := saved_user; sent := [] |}).2).
Proof.
  apply (proj1 (getitem_after_setitem saved_user [] "age" "name" (VInt 5)
                  (or_introl eq_refl))).
Defined.

(** X2.  Reading a field the store does not hold gives [None] when the
    collection allows foreign fields and raises [KeyError] when it does
    not; either way the document and the request log are as before. *)
Theorem getitem_absent (d : Doc) (log : list Request) (k : string) :
  _store d !! k = None ->
  Document___getitem__ k {| self := d; sent := log |}
  = (if allow_foreign_fields (_validation (collection d))
     then Ok VNone else Raise (KeyError (msg_no_field k)),
     {| self := d; sent := log |}).
Proof.
  intros H. unfold Document___getitem__, bind, get. simpl. rewrite H.
  by destruct (allow_foreign_fields _).
Qed.

Lemma getitem_absent_witness :
  Document___getitem__ "age" {| self := unsaved users ∅; sent := [] |}
  = (Raise (KeyError (msg_no_field "age")),
     {| self := unsaved users ∅; sent := [] |})
  /\ Document___getitem__ "age" {| self := unsaved lenient_users ∅; sent := [] |}
     = (Ok VNone, {| self := unsaved lenient_users ∅; sent := [] |}).
Proof.
  split.
  - apply (getitem_absent (unsaved users ∅) [] "age"). by vm_compute.
  - apply (getitem_absent (unsaved lenient_users ∅) [] "age"). by vm_compute.
Defined.

(** ** save: what is sent and what comes back *)

Lemma accepted_refused (r : Response) (st : St) :
  save_refused r -> accepted 201 202 r st = (Ok false, st).
Proof.
  intros H. unfold accepted, bind, getitem.
  destruct (Z.eqb (status_code r) 201 || Z.eqb (status_code r) 202) eqn:Hs;
    [| done].
  destruct H as [[H1 H2] | (e & He & Ht)].
  - apply orb_true_iff in Hs. destruct Hs as [Hs | Hs]; apply Z.eqb_eq in Hs; done.
  - rewrite He. simpl. by rewrite Ht.
Qed.

(** [save] on a modified document of a collection that does not validate on
    save: the request, and what is done with the response. *)
Lemma Document_save_sends
  (server : list Request -> Request -> Response)
  (d : Doc) (log : list Request) (docArgs : dict) :
  modified d = true ->
  on_save (_validation (collection d)) = false ->
  Document_save server docArgs {| self := d; sent := log |}
  = (ok <- accepted 201 202 (server log (save_request d docArgs)) ;;
     (if ok : bool then
        match URL d with
        | Some _ =>
            rev <- getitem (json (server log (save_request d docArgs))) "_rev" ;;
            upd (with_rev rev)
        | None =>
            upd (fun d' => (setPrivates (json (server log (save_request d docArgs))) d').2)
        end
      else
        match URL d with
        | Some _ =>
            m <- getitem (json (server log (save_request d docArgs))) "errorMessage" ;;
            raise (UpdateError m (json (server log (save_request d docArgs))))
        | None =>
            m <- getitem (json (server log (save_request d docArgs))) "errorMessage" ;;
            raise (CreationError m (json (server log (save_request d docArgs))))
        end) ;;
     upd (with_modified false))%py
      {| self := d; sent := (log ++ [save_request d docArgs])%list |}.
Proof.
  intros Hm Hon.
  unfold Document_save, bind at 1, get at 1. cbn [self]. rewrite Hm, Hon.
  unfold bind at 1, ret at 1. unfold bind at 1, get at 1. cbn [self].
  unfold save_request. destruct (URL d) as [u|].
  - unfold bind at 1. unfold bind at 1, http at 1, ret at 1. reflexivity.
  - unfold bind at 1. unfold bind at 1, http at 1, ret at 1. reflexivity.
Qed.

(** X3.  The first save of a document that the server accepts with a full
    identity: one POST goes to the collection, with the store as payload and
    the caller's options plus the collection's name as parameters; the
    document takes id, revision and key from the response and its URL from
    the id, [modified] is cleared and the stores are as before. *)
Theorem save_creates
  (server : list Request -> Request -> Response)
  (d : Doc) (log : list Request) (docArgs : dict) (i rv k : value) :
  modified d = true ->
  on_save (_validation (collection d)) = false ->
  URL d = None ->
  let r := server log (POST_of d docArgs) in
  save_accepted r ->
  json r !! "_id" = Some i -> json r !! "_rev" = Some rv ->
  json r !! "_key" = Some k ->
  let out := Document_save server docArgs {| self := d; sent := log |} in
  out.1 = Ok tt
  /\ sent out.2 = (log ++ [POST_of d docArgs])%list
  /\ _id (self out.2) = i /\ _rev (self out.2) = rv /\ _key (self out.2) = k
  /\ URL (self out.2) = Some (documentsURL d +:+ "/" +:+ py_str i)
  /\ modified (self out.2) = false
  /\ _store (self out.2) = _store d /\ _patchStore (self out.2) = _patchStore d.
Proof.
  intros Hm Hon HU r Hacc Hi Hr Hk out. subst out.
  rewrite (proj1 (Document_save_create server d log docArgs Hm Hon HU) Hacc).
  fold r. simpl.
  destruct (setPrivates_frame (json r) d) as (_ & _ & _ & Hs & Hp & _).
  simpl in Hs, Hp.
  split; [done |]. split; [done |].
  assert (Hd : forall d0, documentsURL d0 = documentsURL d ->
      let d' := (Document_setPrivates (json r) d0).2 in
      _id d' = i /\ _rev d' = rv /\ _key d' = k
      /\ URL d' = Some (documentsURL d +:+ "/" +:+ py_str i)).
  { intros d0 Hd0. rewrite (Document_setPrivates_all _ _ _ _ _ Hi Hr Hk).
    simpl. by rewrite Hd0. }
  unfold setPrivates, Edge_setPrivates in *.
  destruct (cls d).
  - destruct (Hd d eq_refl) as (? & ? & ? & ?). done.
  - match goal with
    | |- context [ Document_setPrivates _ ?d0 ] =>
        destruct (Hd d0) as (? & ? & ? & ?); [by repeat case_match | done]
    end.
Qed.

Lemma save_creates_witness :
  let out := Document_save accepting ∅
               {| self := unsaved users {[ "name" := VStr "a" ]}; sent := [] |} in
  out.1 = Ok tt
  /\ _key (self out.2) = VStr "1"
  /\ URL (self out.2) = Some "http://localhost:8529/_api/document/users/1"
  /\ modified (self out.2) = false.
Proof.
  intros out.
  assert (Ha : save_accepted created).
  { split; [by left |]. exists (VBool false). by vm_compute. }
  assert (Hi : json created !! "_id" = Some (VStr "users/1")) by by vm_compute.
  assert (Hr : json created !! "_rev" = Some (VStr "7")) by by vm_compute.
  assert (Hk : json created !! "_key" = Some (VStr "1")) by by vm_compute.
  destruct (save_creates accepting (unsaved users {[ "name" := VStr "a" ]}) [] ∅
              (VStr "users/1") (VStr "7") (VStr "1")
              eq_refl eq_refl eq_refl Ha Hi Hr Hk)
    as (H1 & _ & _ & _ & H5 & H6 & H7 & _).
  exact (conj H1 (conj H5 (conj H6 H7))).
Defined.

(** X4.  A save that the server refuses, giving its message: the call
    raises [CreationError] for a document without URL and [UpdateError] for
    one with a URL, carrying the message and the whole response; one request
    has been sent, and the document is as before, still modified. *)
Theorem save_refused_raises
  (server : list Request -> Request -> Response)
  (d : Doc) (log : list Request) (docArgs : dict) (m : value) :
  modified d = true ->
  on_save (_validation (collection d)) = false ->
  let r := server log (save_request d docArgs) in
  save_refused r ->
  json r !! "errorMessage" = Some m ->
  Document_save server docArgs {| self := d; sent := log |}
  = (Raise (match URL d with
            | None => CreationError m (json r)
            | Some _ => UpdateError m (json r)
            end),
     {| self := d; sent := (log ++ [save_request d docArgs])%list |}).
Proof.
  intros Hm Hon r Href Hmsg. subst r.
  rewrite (Document_save_sends server d log docArgs Hm Hon).
  unfold bind at 1. rewrite (accepted_refused _ _ Href).
  unfold bind, getitem. destruct (URL d); rewrite Hmsg; done.
Qed.

Lemma save_refused_raises_witness :
  Document_save refusing ∅ {| self := changed_user; sent := [] |}
  = (Raise (UpdateError (VStr "document not found") (json not_found)),
     {| self := changed_user; sent := [PUT_of changed_user ∅
          "http://localhost:8529/_api/document/users/1"] |}).
Proof.
  apply (save_refused_raises refusing changed_user [] ∅
           (VStr "document not found") eq_refl eq_refl).
  - left. split; vm_compute; discriminate.
  - by vm_compute.
Defined.

(** X5.  A save of a document that has a URL, accepted with a new revision:
    one PUT goes to the URL with the whole store as payload; the revision is
    replaced, [modified] is cleared, and nothing else changes, the patch
    store included. *)
Theorem save_updates
  (server : list Request -> Request -> Response)
  (d : Doc) (log : list Request) (docArgs : dict) (u : string) (rv : value) :
  modified d = true ->
  on_save (_validation (collection d)) = false ->
  URL d = Some u ->
  let r := server log (PUT_of d docArgs u) in
  save_accepted r ->
  json r !! "_rev" = Some rv ->
  Document_save server docArgs {| self := d; sent := log |}
  = (Ok tt, {| self := with_modified false (with_rev rv d);
               sent := (log ++ [PUT_of d docArgs u])%list |}).
Proof.
  intros Hm Hon HU r Hacc Hrev. subst r.
  rewrite (Document_save_sends server d log docArgs Hm Hon).
  unfold save_request. rewrite HU.
  unfold bind at 1. rewrite (accepted_yes _ _ Hacc).
  unfold bind, getitem. rewrite Hrev. done.
Qed.

Lemma save_updates_witness :
  let out := Document_save updating ∅ {| self := changed_user; sent := [] |} in
  out.1 = Ok tt
  /\ _rev (self out.2) = VStr "8" /\ _id (self out.2) = VStr "users/1"
  /\ modified (self out.2) = false
  /\ _patchStore (self out.2) = {[ "age" := VInt 5 ]}.
Proof.
  intros out. subst out.
  rewrite (save_updates updating changed_user [] ∅
             "http://localhost:8529/_api/document/users/1" (VStr "8")
             eq_refl eq_refl eq_refl).
  - done.
  - split; [by right |]. exists (VBool false). by vm_compute.
  - by vm_compute.
Defined.

(** When a computation that ends by clearing [modified] returns, the flag
    is cleared. *)
Lemma ends_unmodified {A B} (m : M A) (f : A -> M B) (st st' : St) (x : unit) :
  (a <- m ;; f a ;; upd (with_modified false))%py st = (Ok x, st') ->
  modified (self st') = false.
Proof.
  unfold bind, upd.
  destruct (m st) as [[a|e] st1]; [| done].
  destruct (f a st1) as [[b|e] st2]; [| done].
  by intros [= _ <-].
Qed.

(** X6.  Whenever [save] returns, the document is not modified: saving
    again at once returns too, sends nothing and changes nothing. *)
Theorem save_twice
  (server : list Request -> Request -> Response)
  (st st' : St) (docArgs docArgs' : dict) :
  Document_save server docArgs st = (Ok tt, st') ->
  modified (self st') = false
  /\ Document_save server docArgs' st' = (Ok tt, st').
Proof.
  intros H.
  assert (Hm : modified (self st') = false).
  { destruct st as [d log].
    destruct (modified d) eqn:Hm.
    - destruct (on_save (_validation (collection d))) eqn:Hon.
      + by rewrite (Document_save_validate_raises server d log docArgs Hm Hon) in H.
      + rewrite (Document_save_sends server d log docArgs Hm Hon) in H.
        by apply ends_unmodified in H.
    - rewrite (save_unmodified server d log docArgs Hm) in H.
      injection H as <-. done. }
  split; [done |]. destruct st' as [d' log']. by apply save_unmodified.
Qed.

Lemma save_twice_witness :
  let st' := (Document_save accepting ∅
                {| self := unsaved users {[ "name" := VStr "a" ]}; sent := [] |}).2 in
  length (sent st') = 1%nat
  /\ Document_save accepting {[ "waitForSync" := VBool true ]} st' = (Ok tt, st').
Proof.
  intros st'. split; [by vm_compute |].
  apply (save_twice accepting
           {| self := unsaved users {[ "name" := VStr "a" ]}; sent := [] |} st' ∅).
  by vm_compute.
Defined.

(** ** What saving and patching leave alone *)

Lemma keeps_self_http server (R : Doc -> Prop) rq :
  keeps (on_self R) (http server rq).
Proof. by intros [d log] H. Qed.

Lemma keeps_self_upd (R : Doc -> Prop) (f : Doc -> Doc) :
  (forall d, R d -> R (f d)) -> keeps (on_self R) (upd f).
Proof. intros Hf. apply keeps_upd. intros d log. apply Hf. Qed.

Lemma keeps_stores_upd (R : Doc -> Prop) (f : Doc -> Doc) :
  stores_only R ->
  (forall d, _store d = _store (f d) /\ _patchStore d = _patchStore (f d)) ->
  keeps (on_self R) (upd f).
Proof.
  intros HR Hf. apply keeps_self_upd. intros d. destruct (Hf d). by apply HR.
Qed.

Lemma setPrivates_stores (m : dict) (d : Doc) :
  _store d = _store (setPrivates m d).2
  /\ _patchStore d = _patchStore (setPrivates m d).2.
Proof. destruct (setPrivates_frame m d) as (_ & _ & _ & H1 & H2 & _). done. Qed.

Ltac stores_step HR :=
  first [ apply keeps_self_http
        | apply (keeps_stores_upd _ _ HR); intros ?; first [ done | apply setPrivates_stores ]
        | keeps_step ].

Lemma keeps_stores_Document_save server (R : Doc -> Prop) (docArgs : dict) :
  stores_only R -> keeps (on_self R) (Document_save server docArgs).
Proof.
  intros HR. unfold Document_save.
  apply keeps_bind; [apply keeps_get |]. intros d.
  apply keeps_if; [| apply keeps_ret].
  apply keeps_bind; [repeat stores_step HR |]. intros _.
  apply keeps_bind; [apply keeps_get |]. intros d'.
  apply keeps_bind.
  { destruct (URL d'); repeat stores_step HR. }
  intros [r update].
  apply keeps_bind; [unfold accepted; repeat stores_step HR |]. intros ok.
  apply keeps_bind; [| intros _; stores_step HR].
  destruct ok, update; repeat stores_step HR.
Qed.

Lemma keeps_stores_Document_patch server (R : Doc -> Prop)
      (keepNull : value) (docArgs : dict) :
  stores_only R -> keeps (on_self R) (Document_patch server keepNull docArgs).
Proof.
  intros HR. unfold Document_patch.
  apply keeps_bind; [apply keeps_get |]. intros d.
  apply keeps_bind; [repeat stores_step HR |]. intros _.
  apply keeps_bind; [apply keeps_get |]. intros d'.
  destruct (URL d'); [| apply keeps_raise].
  apply keeps_if; [| apply keeps_ret].
  apply keeps_bind; [apply keeps_self_http |]. intros r.
  apply keeps_bind; [unfold accepted; repeat stores_step HR |]. intros ok.
  apply keeps_bind; [| intros _; stores_step HR].
  destruct ok; repeat stores_step HR.
Qed.

Lemma keeps_stores_Edge_save server (R : Doc -> Prop)
      (f t : vertex) (edgeArgs : dict) :
  stores_only R -> keeps (on_self R) (Edge_save server f t edgeArgs).
Proof.
  intros HR. unfold Edge_save.
  repeat (first [ apply keeps_resolve_vertex
                | by apply keeps_stores_Document_save
                | stores_step HR ]).
Qed.

Lemma keeps_stores_save server (R : Doc -> Prop) (docArgs : dict) :
  stores_only R -> keeps (on_self R) (save server docArgs).
Proof.
  intros HR. unfold save. apply keeps_bind; [apply keeps_get |]. intros d.
  destruct (cls d);
    [by apply keeps_stores_Document_save | by apply keeps_stores_Edge_save].
Qed.

Lemma keeps_stores_forceSave server (R : Doc -> Prop) (docArgs : dict) :
  stores_only R -> keeps (on_self R) (Document_forceSave server docArgs).
Proof.
  intros HR. unfold Document_forceSave.
  apply keeps_bind; [stores_step HR |]. intros _. by apply keeps_stores_save.
Qed.

Lemma stores_only_eq (s p : dict) :
  stores_only (fun d => _store d = s /\ _patchStore d = p).
Proof. intros d d' Hs Hp [H1 H2]. split; congruence. Qed.

(** X7.  [save], [forceSave], [patch] and [Edge.save] never change the
    store or the patch store, whatever the server answers and whether they
    return or raise: a successful save or patch does not empty the patch
    store. *)
Theorem saving_keeps_stores
  (server : list Request -> Request -> Response)
  (st : St) (docArgs : dict) (keepNull : value) (f t : vertex) :
  let same st' :=
    _store (self st') = _store (self st)
    /\ _patchStore (self st') = _patchStore (self st) in
  same (save server docArgs st).2
  /\ same (Document_save server docArgs st).2
  /\ same (Document_forceSave server docArgs st).2
  /\ same (Document_patch server keepNull docArgs st).2
  /\ same (Edge_save server f t docArgs st).2.
Proof.
  pose proof (stores_only_eq (_store (self st)) (_patchStore (self st))) as HR.
  intros same. subst same. cbv beta.
  split; [| split; [| split; [| split]]].
  - by apply (keeps_stores_save server _ docArgs HR st).
  - by apply (keeps_stores_Document_save server _ docArgs HR st).
  - by apply (keeps_stores_forceSave server _ docArgs HR st).
  - by apply (keeps_stores_Document_patch server _ keepNull docArgs HR st).
  - by apply (keeps_stores_Edge_save server _ f t docArgs HR st).
Qed.

(** ** The patch store and the store *)

Lemma stores_only_patch_keys : stores_only patch_keys_in_store.
Proof. intros d d' Hs Hp. unfold patch_keys_in_store. by rewrite Hs, Hp. Qed.

Lemma keeps_keys_setitem k v :
  keeps (on_self patch_keys_in_store) (Document___setitem__ k v).
Proof.
  intros [d log] H. unfold on_self, patch_keys_in_store in *. simpl in H.
  destruct (setitem_cases d k v) as [Hacc | (e & Hon & Hv)].
  - rewrite (setitem_accepted _ _ _ _ Hacc). simpl.
    destruct (URL d); simpl; rewrite ?dom_insert_L; set_solver.
  - by rewrite (setitem_refused _ _ _ _ _ Hon Hv).
Qed.

Lemma keeps_keys_set {order : KeyOrder} (fieldDict : dict) :
  keeps (on_self patch_keys_in_store) (set_ fieldDict).
Proof.
  intros [d log] H. unfold set_, Document_set. simpl.
  assert (Hc : on_self patch_keys_in_store
                 {| self := (setPrivates fieldDict d).2; sent := log |}).
  { destruct (setPrivates_stores fieldDict d) as [Hs Hp].
    unfold on_self, patch_keys_in_store in *. simpl in *. by rewrite <- Hs, <- Hp. }
  destruct (setPrivates fieldDict d) as [fd' d']. simpl in Hc.
  match goal with
  | |- context [ (if ?b then ?m1 else ?m2) ?st ] =>
      assert (Hk : keeps (on_self patch_keys_in_store) (if b then m1 else m2));
      [| specialize (Hk st Hc); destruct ((if b then m1 else m2) st); exact Hk ]
  end.
  apply keeps_if.
  - apply keeps_for_each. intros k.
    apply keeps_bind; [apply keeps_getitem | intros v; apply keeps_keys_setitem].
  - apply keeps_self_upd. intros d0. unfold patch_keys_in_store. simpl.
    rewrite dom_union_L. set_solver.
Qed.

(** [reset] empties both stores before it sets the fields. *)
Lemma Document_reset_from_empty {order : KeyOrder} (c : Collection) (jsonFieldInit : dict) (st : St) :
  Document_reset c jsonFieldInit st
  = (set_ jsonFieldInit ;; upd (with_modified true))%py
      {| self := with_patchStore ∅ (with_store ∅
                   (with_documentsURL (col_documentsURL c)
                      (with_collection c (self st))));
         sent := sent st |}.
Proof. reflexivity. Qed.

Lemma keeps_keys_reset {order : KeyOrder} (c : Collection) (jsonFieldInit : dict) (st : St) :
  on_self patch_keys_in_store (reset c jsonFieldInit st).2.
Proof.
  assert (H : on_self patch_keys_in_store (Document_reset c jsonFieldInit st).2).
  { rewrite Document_reset_from_empty.
    apply keeps_bind.
    - apply keeps_keys_set.
    - intros _. apply keeps_self_upd. by intros d.
    - unfold on_self, patch_keys_in_store. simpl. set_solver. }
  unfold reset, Edge_reset, bind, get. simpl. by destruct (cls (self st)).
Qed.

Lemma keeps_keys_reset' {order : KeyOrder} (c : Collection) (jsonFieldInit : dict) :
  keeps (on_self patch_keys_in_store) (reset c jsonFieldInit).
Proof. intros st _. apply keeps_keys_reset. Qed.

Lemma keeps_keys_delete {order : KeyOrder} server :
  keeps (on_self patch_keys_in_store) (Document_delete server).
Proof.
  unfold Document_delete.
  apply keeps_bind; [apply keeps_get |]. intros d.
  destruct (URL d); [| apply keeps_raise].
  repeat (first [ apply keeps_self_http
                | apply keeps_refused
                | apply keeps_keys_reset'
                | apply keeps_self_upd; by intros ?
                | keeps_step ]).
Qed.

Lemma keeps_keys_saveCopy {order : KeyOrder} server :
  keeps (on_self patch_keys_in_store) (Document_saveCopy server).
Proof.
  unfold Document_saveCopy.
  repeat (first [ apply keeps_keys_reset'
                | apply keeps_stores_save; apply stores_only_patch_keys
                | keeps_step ]).
Qed.

Lemma run_op_keys {order : KeyOrder} server (o : op) (st : St) :
  on_self patch_keys_in_store st ->
  on_self patch_keys_in_store (run_op server o st).
Proof.
  intros H. destruct o; simpl.
  - apply keeps_keys_reset.
  - by apply keeps_keys_set.
  - by apply keeps_stores_save; [apply stores_only_patch_keys |].
  - by apply keeps_stores_Edge_save; [apply stores_only_patch_keys |].
  - by apply keeps_stores_forceSave; [apply stores_only_patch_keys |].
  - by apply keeps_keys_saveCopy.
  - by apply keeps_stores_Document_patch; [apply stores_only_patch_keys |].
  - by apply keeps_keys_delete.
  - by apply keeps_keys_setitem.
Qed.

(** X8.  Whatever is done to a document after its construction, by any
    operations with any arguments against any server, every field of its
    patch store is a field of its store. *)
Theorem patch_store_within_store {order : KeyOrder}
  (server : list Request -> Request -> Response)
  (c : pyclass) (col : Collection) (jsonFieldInit : dict)
  (log : list Request) (ops : list op) :
  dom (_patchStore (self (run_ops server ops (new c col jsonFieldInit log).2)))
  ⊆ dom (_store (self (run_ops server ops (new c col jsonFieldInit log).2))).
Proof.
  assert (H0 : on_self patch_keys_in_store (new c col jsonFieldInit log).2).
  { apply keeps_keys_reset. }
  revert H0. generalize (new c col jsonFieldInit log).2.
  induction ops as [|o ops IH]; intros st H; [done |].
  simpl. apply IH. by apply run_op_keys.
Qed.

(** ** What reaches the server *)

Lemma quiet_upd (f : Doc -> Doc) : quiet (upd f).
Proof. intros L. apply keeps_upd. by intros d log. Qed.

Lemma quiet_accepted a b r : quiet (accepted a b r).
Proof. intros L. unfold accepted. repeat keeps_step. Qed.

Lemma Document_save_log
  (server : list Request -> Request -> Response)
  (d : Doc) (log : list Request) (docArgs : dict) :
  modified d = true ->
  on_save (_validation (collection d)) = false ->
  sent (Document_save server docArgs {| self := d; sent := log |}).2
  = (log ++ [save_request d docArgs])%list.
Proof.
  intros Hm Hon. rewrite (Document_save_sends server d log docArgs Hm Hon).
  match goal with
  | |- sent (?m ?s0).2 = ?L =>
      assert (Hk : keeps (fun s => sent s = L) m); [| by apply (Hk s0)]
  end.
  apply keeps_bind; [apply quiet_accepted |]. intros ok.
  apply keeps_bind; [| intros _; apply quiet_upd].
  destruct ok, (URL d); repeat (first [apply quiet_upd | keeps_step]).
Qed.

(** X9.  [forceSave] on an instance of [Document] sends one request, the
    POST or PUT that [save] sends for a modified document, whether or not
    the document was modified; [save] on a document that is not modified
    sends none.  (The collection does not validate on save.) *)
Theorem forceSave_sends
  (server : list Request -> Request -> Response)
  (d : Doc) (log : list Request) (docArgs : dict) :
  cls d = Document ->
  on_save (_validation (collection d)) = false ->
  sent (Document_forceSave server docArgs {| self := d; sent := log |}).2
  = (log ++ [save_request d docArgs])%list
  /\ (modified d = false ->
      sent (Document_save server docArgs {| self := d; sent := log |}).2 = log).
Proof.
  intros Hc Hon. split.
  - unfold Document_forceSave, bind at 1, upd at 1. cbn [self sent].
    unfold save, bind at 1, get at 1. cbn [self cls with_modified]. rewrite Hc.
    by rewrite (Document_save_log server (with_modified true d) log docArgs).
  - intros Hm. by rewrite (save_unmodified server d log docArgs Hm).
Qed.

Lemma forceSave_sends_witness :
  sent (Document_forceSave updating ∅ {| self := saved_user; sent := [] |}).2
  = [PUT_of saved_user ∅ "http://localhost:8529/_api/document/users/1"]
  /\ sent (Document_save updating ∅ {| self := saved_user; sent := [] |}).2 = [].
Proof.
  destruct (forceSave_sends updating saved_user [] ∅ eq_refl eq_refl) as [H1 H2].
  split; [exact H1 | exact (H2 eq_refl)].
Defined.

(** ** patch *)

Lemma Document_patch_sends
  (server : list Request -> Request -> Response)
  (d : Doc) (log : list Request) (keepNull : value) (docArgs : dict) (u : string) :
  on_save (_validation (collection d)) = false ->
  URL d = Some u ->
  _patchStore d <> ∅ ->
  Document_patch server keepNull docArgs {| self := d; sent := log |}
  = (ok <- accepted 201 202 (server log (PATCH_of d keepNull docArgs u)) ;;
     (if ok : bool then
        rev <- getitem (json (server log (PATCH_of d keepNull docArgs u))) "_rev" ;;
        upd (with_rev rev)
      else
        m <- getitem (json (server log (PATCH_of d keepNull docArgs u))) "errorMessage" ;;
        raise (UpdateError m (json (server log (PATCH_of d keepNull docArgs u))))) ;;
     upd (with_modified false))%py
      {| self := d; sent := (log ++ [PATCH_of d keepNull docArgs u])%list |}.
Proof.
  intros Hon HU Hne.
  unfold Document_patch, bind at 1, get at 1. cbn [self]. rewrite Hon.
  unfold bind at 1, ret at 1. unfold bind at 1, get at 1. cbn [self]. rewrite HU.
  assert (Hs : Nat.ltb 0 (size (_patchStore d)) = true).
  { apply Nat.ltb_lt. destruct (size (_patchStore d)) eqn:E; [| lia].
    by apply map_size_empty_inv in E. }
  rewrite Hs. unfold bind at 1, http at 1. reflexivity.
Qed.

(** X10.  [patch] on a saved document whose patch store is empty returns at
    once: nothing is sent and nothing changes; in particular a document
    that is modified stays modified. *)
Theorem patch_nothing_to_send
  (server : list Request -> Request -> Response)
  (d : Doc) (log : list Request) (keepNull : value) (docArgs : dict) :
  on_save (_validation (collection d)) = false ->
  URL d <> None ->
  _patchStore d = ∅ ->
  Document_patch server keepNull docArgs {| self := d; sent := log |}
  = (Ok tt, {| self := d; sent := log |}).
Proof.
  intros Hon HU He.
  unfold Document_patch, bind, get, ret. cbn [self]. rewrite Hon. cbn [self].
  destruct (URL d); [| done]. by rewrite He, map_size_empty.
Qed.

Lemma patch_nothing_to_send_witness :
  new Document users server_fields [] = (Ok tt, {| self := loaded_user; sent := [] |})
  /\ Document_patch updating (VBool true) ∅ {| self := loaded_user; sent := [] |}
     = (Ok tt, {| self := loaded_user; sent := [] |}).
Proof.
  split; [vm_compute; reflexivity |].
  apply (patch_nothing_to_send updating loaded_user [] (VBool true) ∅);
    [reflexivity | discriminate | reflexivity].
Defined.

(** X11.  [patch] on a saved document with fields to send: one PATCH goes
    to the URL, with the patch store as payload and the options, the
    collection's name and [keepNull] as parameters.  Accepted with a new
    revision, it replaces the revision and clears [modified] and leaves the
    patch store as it is; refused with a message, it raises [UpdateError]
    and leaves the document as it is. *)
Theorem patch_sends_patch_store
  (server : list Request -> Request -> Response)
  (d : Doc) (log : list Request) (keepNull : value) (docArgs : dict) (u : string) :
  on_save (_validation (collection d)) = false ->
  URL d = Some u ->
  _patchStore d <> ∅ ->
  let rq := PATCH_of d keepNull docArgs u in
  let r := server log rq in
  (forall rv, save_accepted r -> json r !! "_rev" = Some rv ->
     Document_patch server keepNull docArgs {| self := d; sent := log |}
     = (Ok tt, {| self := with_modified false (with_rev rv d);
                  sent := (log ++ [rq])%list |}))
  /\ (forall m, save_refused r -> json r !! "errorMessage" = Some m ->
      Document_patch server keepNull docArgs {| self := d; sent := log |}
      = (Raise (UpdateError m (json r)),
         {| self := d; sent := (log ++ [rq])%list |})).
Proof.
  intros Hon HU Hne rq r. subst rq r.
  rewrite (Document_patch_sends server d log keepNull docArgs u Hon HU Hne).
  split.
  - intros rv Hacc Hrev. unfold bind at 1. rewrite (accepted_yes _ _ Hacc).
    unfold bind, getitem. by rewrite Hrev.
  - intros m Href Hm. unfold bind at 1. rewrite (accepted_refused _ _ Href).
    unfold bind, getitem. by rewrite Hm.
Qed.

Lemma patch_sends_patch_store_witness :
  Document_patch updating (VBool true) ∅ {| self := changed_user; sent := [] |}
  = (Ok tt,
     {| self := with_modified false (with_rev (VStr "8") changed_user);
        sent := [PATCH_of changed_user (VBool true) ∅
                   "http://localhost:8529/_api/document/users/1"] |}).
Proof.
  apply (proj1 (patch_sends_patch_store updating changed_user [] (VBool true) ∅
                  "http://localhost:8529/_api/document/users/1"
                  eq_refl eq_refl ltac:(by vm_compute))).
  - split; [by right |]. exists (VBool false). by vm_compute.
  - by vm_compute.
Defined.

Lemma Document_patch_log
  (server : list Request -> Request -> Response)
  (d : Doc) (log : list Request) (keepNull : value) (docArgs : dict) (u : string) :
  on_save (_validation (collection d)) = false ->
  URL d = Some u ->
  _patchStore d <> ∅ ->
  sent (Document_patch server keepNull docArgs {| self := d; sent := log |}).2
  = (log ++ [PATCH_of d keepNull docArgs u])%list.
Proof.
  intros Hon HU Hne.
  rewrite (Document_patch_sends server d log keepNull docArgs u Hon HU Hne).
  match goal with
  | |- sent (?m ?s0).2 = ?L =>
      assert (Hk : keeps (fun s => sent s = L) m); [| by apply (Hk s0)]
  end.
  apply keeps_bind; [apply quiet_accepted |]. intros ok.
  apply keeps_bind; [| intros _; apply quiet_upd].
  destruct ok; repeat (first [apply quiet_upd | keeps_step]).
Qed.

(** X12.  In a collection that does not validate on save: a field that the
    collection lets through, assigned on a saved document whose patch store
    is empty, and then [patch]: one PATCH goes to the URL and its payload is
    that one field, whatever else the store holds. *)
Theorem setitem_then_patch
  (server : list Request -> Request -> Response)
  (d : Doc) (log : list Request) (k : string) (v keepNull : value)
  (docArgs : dict) (u : string) :
  on_save (_validation (collection d)) = false ->
  URL d = Some u ->
  _patchStore d = ∅ ->
  field_accepted d k v ->
  sent ((Document___setitem__ k v ;; Document_patch server keepNull docArgs)%py
          {| self := d; sent := log |}).2
  = (log ++ [ {| meth := PATCH; url := u;
                 params := Some (<["keepNull" := keepNull]>
                           (<["collection" := VStr (col_name (collection d))]> docArgs));
                 data := Some {[ k := v ]} |} ])%list.
Proof.
  intros Hon HU He Hacc. unfold bind at 1.
  rewrite (setitem_accepted _ _ _ _ Hacc), HU.
  rewrite (Document_patch_log server _ log keepNull docArgs u); simpl; try done.
  - unfold PATCH_of. simpl. by rewrite He, insert_empty.
  - rewrite He. apply insert_non_empty.
Qed.

Lemma setitem_then_patch_witness :
  sent ((Document___setitem__ "age" (VInt 5) ;; Document_patch updating (VBool true) ∅)%py
          {| self := saved_user; sent := [] |}).2
  = [ {| meth := PATCH; url := "http://localhost:8529/_api/document/users/1";
         params := Some (<["keepNull" := VBool true]>
                           (<["collection" := VStr "users"]> ∅));
         data := Some {[ "age" := VInt 5 ]} |} ].
Proof.
  apply (setitem_then_patch updating saved_user [] "age" (VInt 5) (VBool true) ∅
           "http://localhost:8529/_api/document/users/1"
           eq_refl eq_refl eq_refl (or_introl eq_refl)).
Defined.

(** ** Construction *)

Lemma for_each_setitem_patchStore (l : list (string * value)) (d : Doc)
      (log : list Request) (st' : St) :
  URL d <> None ->
  for_each l (fun kv => Document___setitem__ kv.1 kv.2) {| self := d; sent := log |}
  = (Ok tt, st') ->
  _patchStore (self st') = foldl write (_patchStore d) l
  /\ sent st' = log /\ modified (self st') = (modified d || bool_decide (l <> [])).
Proof.
  revert d. induction l as [|[k v] l IH]; intros d HU; simpl.
  - intros [= <-]. simpl. by rewrite orb_false_r.
  - unfold bind. simpl.
    destruct (setitem_cases d k v) as [Hacc | (e & Hon & Hv)].
    + rewrite (setitem_accepted _ _ _ _ Hacc). intros H.
      destruct (URL d) as [u|] eqn:E; [| done].
      apply IH in H; [| simpl; by rewrite E].
      destruct H as (H1 & H2 & H3). rewrite H1, H2, H3. simpl.
      split; [done |]. split; [done |]. by rewrite orb_true_r.
    + by rewrite (setitem_refused _ _ _ _ _ Hon Hv).
Qed.

Lemma new_plain {order : KeyOrder}
  (c : pyclass) (col : Collection) (jsonFieldInit : dict) (log : list Request) :
  on_set (_validation col) = false ->
  let out := new c col jsonFieldInit log in
  out.1 = Ok tt
  /\ _store (self out.2)
     = foldl (fun m k => delete k m) jsonFieldInit (deleted_privates jsonFieldInit)
  /\ _patchStore (self out.2) = ∅
  /\ modified (self out.2) = true
  /\ collection (self out.2) = col
  /\ sent out.2 = log.
Proof.
  intros Hon out. subst out. unfold new.
  assert (E : reset col jsonFieldInit {| self := blank c col; sent := log |}
              = Document_reset col jsonFieldInit {| self := blank c col; sent := log |}).
  { unfold reset, Edge_reset, bind, get. simpl. by destruct c. }
  rewrite E, Document_reset_from_empty. cbn [self sent].
  unfold bind, set_.
  rewrite Document_set_no_validation by done.
  destruct (setPrivates_frame jsonFieldInit
              (with_patchStore ∅ (with_store ∅
                 (with_documentsURL (col_documentsURL col)
                    (with_collection col (blank c col))))))
    as (_ & Hc & _ & Hs & Hp & _).
  simpl in Hc, Hs, Hp. simpl.
  rewrite Hs, Hp, Hc, setPrivates_dict, (right_id_L ∅ (∪)). done.
Qed.

(** X13.  In a collection that does not validate on set, the constructor
    returns a modified document whose store holds the fields given, less
    the reserved keys [setPrivates] removed, and whose patch store is empty,
    even when the fields carry an identity; nothing is sent. *)
Theorem new_without_validation {order : KeyOrder}
  (c : pyclass) (col : Collection) (jsonFieldInit : dict) (log : list Request) :
  on_set (_validation col) = false ->
  let out := new c col jsonFieldInit log in
  out.1 = Ok tt
  /\ _store (self out.2)
     = foldl (fun m k => delete k m) jsonFieldInit (deleted_privates jsonFieldInit)
  /\ _patchStore (self out.2) = ∅
  /\ modified (self out.2) = true
  /\ collection (self out.2) = col
  /\ sent out.2 = log.
Proof.
  intros Hon out. subst out.
  destruct (new_plain c col jsonFieldInit log Hon) as (H1 & H2 & H3 & H4 & H5 & H6).
  repeat split; assumption.
Qed.

Lemma new_without_validation_witness :
  let out := new Document users server_fields [] in
  _store (self out.2) = delete "_key" (delete "_rev" (delete "_id" server_fields))
  /\ _patchStore (self out.2) = ∅
  /\ modified (self out.2) = true.
Proof.
  intros out. subst out.
  destruct (new_without_validation Document users server_fields [] eq_refl)
    as (_ & H2 & H3 & H4 & _).
  split; [| by split]. rewrite H2. by vm_compute.
Defined.

Lemma setPrivates_all_URL (fieldDict : dict) (d : Doc) (i r k : value) :
  fieldDict !! "_id" = Some i -> fieldDict !! "_rev" = Some r ->
  fieldDict !! "_key" = Some k ->
  URL (setPrivates fieldDict d).2 <> None.
Proof.
  intros Hi Hr Hk. unfold setPrivates, Edge_setPrivates.
  destruct (cls d); by rewrite (Document_setPrivates_all _ _ _ _ _ Hi Hr Hk).
Qed.

(** X14.  In a collection that validates on set, the constructor given
    fields with a full identity assigns each remaining field as a field
    assignment on a saved document does: when the collection lets them all
    through, the patch store holds every field of the store, so that a
    [patch] right after loading would send them all. *)
Theorem new_with_validation {order : KeyOrder}
  (c : pyclass) (col : Collection) (jsonFieldInit : dict) (log : list Request)
  (i r k : value) :
  on_set (_validation col) = true ->
  jsonFieldInit !! "_id" = Some i -> jsonFieldInit !! "_rev" = Some r ->
  jsonFieldInit !! "_key" = Some k ->
  let rest := delete "_key" (delete "_rev" (delete "_id" jsonFieldInit)) in
  (forall f v, rest !! f = Some v -> validateField col f v = None) ->
  let out := new c col jsonFieldInit log in
  out.1 = Ok tt
  /\ _store (self out.2) = rest
  /\ _patchStore (self out.2) = rest
  /\ modified (self out.2) = true
  /\ sent out.2 = log.
Proof.
  intros Hon Hi Hr Hk rest Hall out. subst out. unfold new.
  assert (E : reset col jsonFieldInit {| self := blank c col; sent := log |}
              = Document_reset col jsonFieldInit {| self := blank c col; sent := log |}).
  { unfold reset, Edge_reset, bind, get. simpl. by destruct c. }
  rewrite E, Document_reset_from_empty. cbn [self sent].
  set (d0 := with_patchStore ∅ _).
  unfold bind, set_, Document_set. cbn [self sent].
  pose proof (setPrivates_all_URL jsonFieldInit d0 i r k Hi Hr Hk) as HU.
  pose proof (setPrivates_dict jsonFieldInit d0) as Hd.
  destruct (setPrivates_frame jsonFieldInit d0) as (_ & Hc & _ & Hs & Hp & _).
  unfold deleted_privates in Hd. rewrite Hi, Hr, Hk in Hd. simpl in Hd.
  fold rest in Hd.
  destruct (setPrivates jsonFieldInit d0) as [fd' d']. simpl in HU, Hd, Hc, Hs, Hp.
  subst fd'. rewrite Hc. simpl. rewrite Hon.
  rewrite (for_each_keys rest Document___setitem__).
  destruct (for_each_setitem_accepted (items_of rest (keys rest)) d' log)
    as (st' & E').
  { intros f v Hin. apply elem_of_items_of_keys in Hin. right.
    rewrite Hc. simpl. by apply Hall. }
  rewrite E'. simpl.
  pose proof (for_each_setitem_store _ _ _ _ E') as Hst.
  destruct (for_each_setitem_patchStore _ _ _ _ HU E') as (Hpt & Hl & _).
  rewrite foldl_write_union in Hst, Hpt
    by (rewrite items_of_fst; apply NoDup_keys).
  rewrite list_to_map_items_of_keys in Hst, Hpt.
  rewrite Hs in Hst. rewrite Hp in Hpt. simpl in Hst, Hpt.
  rewrite (right_id_L ∅ (∪)) in Hst, Hpt. done.
Qed.

Lemma new_with_validation_witness :
  let out := new Document checked_users server_fields [] in
  _store (self out.2) = {[ "name" := VStr "a" ]}
  /\ _patchStore (self out.2) = {[ "name" := VStr "a" ]}.
Proof.
  intros out. subst out.
  assert (Hi : server_fields !! "_id" = Some (VStr "users/1")) by by vm_compute.
  assert (Hr : server_fields !! "_rev" = Some (VStr "7")) by by vm_compute.
  assert (Hk : server_fields !! "_key" = Some (VStr "1")) by by vm_compute.
  destruct (new_with_validation Document checked_users server_fields []
              _ _ _ eq_refl Hi Hr Hk (fun _ _ _ => eq_refl))
    as (_ & H2 & H3 & _).
  rewrite H2, H3. split; by vm_compute.
Defined.

(** ** Edges *)

Lemma Document_setPrivates_endpoints (fieldDict : dict) (d : Doc) :
  _from (Document_setPrivates fieldDict d).2 = _from d
  /\ _to (Document_setPrivates fieldDict d).2 = _to d.
Proof. unfold Document_setPrivates. by repeat case_match. Qed.

Lemma deleted_privates_keep (fieldDict : dict) (k : string) :
  k <> "_id" -> k <> "_rev" -> k <> "_key" ->
  foldl (fun m k => delete k m) fieldDict (deleted_privates fieldDict) !! k
  = fieldDict !! k.
Proof.
  intros H1 H2 H3. unfold deleted_privates.
  repeat case_match; simpl; by rewrite ?lookup_delete_ne.
Qed.

(** X15.  An edge built from a dictionary takes both endpoints from it when
    it holds both [_from] and [_to], and has neither endpoint when one is
    missing; the two keys are not removed from the dictionary, so that they
    are fields of the store as well.  (The collection does not validate on
    set.) *)
Theorem new_Edge_endpoints {order : KeyOrder}
  (col : Collection) (jsonFieldInit : dict) (log : list Request) :
  on_set (_validation col) = false ->
  let e := self (new Edge col jsonFieldInit log).2 in
  (forall f t, jsonFieldInit !! "_from" = Some f -> jsonFieldInit !! "_to" = Some t ->
     _from e = f /\ _to e = t)
  /\ (jsonFieldInit !! "_from" = None \/ jsonFieldInit !! "_to" = None ->
      _from e = VNone /\ _to e = VNone)
  /\ _store e !! "_from" = jsonFieldInit !! "_from"
  /\ _store e !! "_to" = jsonFieldInit !! "_to".
Proof.
  intros Hon e.
  destruct (new_plain Edge col jsonFieldInit log Hon)
    as (_ & Hs & _).
  fold e in Hs.
  assert (He : forall d0, cls d0 = Edge -> on_set (_validation (collection d0)) = false ->
      let d' := self ((set_ jsonFieldInit ;; upd (with_modified true))%py
                        {| self := d0; sent := log |}).2 in
      _from d' = match jsonFieldInit !! "_from", jsonFieldInit !! "_to" with
                 | Some f, Some _ => f | _, _ => VNone end
      /\ _to d' = match jsonFieldInit !! "_from", jsonFieldInit !! "_to" with
                  | Some _, Some t => t | _, _ => VNone end).
  { intros d0 Hc Hon0. unfold bind, set_.
    rewrite Document_set_no_validation by done. simpl.
    unfold setPrivates, Edge_setPrivates. rewrite Hc.
    match goal with
    | |- context [ Document_setPrivates _ ?x ] =>
        destruct (Document_setPrivates_endpoints jsonFieldInit x) as [-> ->]
    end.
    by repeat case_match. }
  assert (E : e = self ((set_ jsonFieldInit ;; upd (with_modified true))%py
                {| self := with_patchStore ∅ (with_store ∅
                     (with_documentsURL (col_documentsURL col)
                        (with_collection col (blank Edge col))));
                   sent := log |}).2) by reflexivity.
  destruct (He (with_patchStore ∅ (with_store ∅
                  (with_documentsURL (col_documentsURL col)
                     (with_collection col (blank Edge col))))) eq_refl Hon)
    as [Hf Ht].
  rewrite <- E in Hf, Ht.
  split; [| split; [| split]].
  - intros f t Hf' Ht'. rewrite Hf, Ht, Hf', Ht'. done.
  - intros [H | H]; rewrite Hf, Ht, H; [done | by destruct (jsonFieldInit !! "_from")].
  - rewrite Hs. by apply deleted_privates_keep.
  - rewrite Hs. by apply deleted_privates_keep.
Qed.

Lemma new_Edge_endpoints_witness :
  let e := self (new Edge friendships edge_fields []).2 in
  _from e = VStr "users/1" /\ _to e = VStr "users/2"
  /\ _store e !! "_from" = Some (VStr "users/1").
Proof.
  intros e.
  destruct (new_Edge_endpoints friendships edge_fields [] eq_refl)
    as (H1 & _ & H3 & _).
  fold e in H1, H3.
  assert (Ef : edge_fields !! "_from" = Some (VStr "users/1")) by by vm_compute.
  assert (Et : edge_fields !! "_to" = Some (VStr "users/2")) by by vm_compute.
  destruct (H1 (VStr "users/1") (VStr "users/2") Ef Et) as [Hf Ht].
  split; [exact Hf |]. split; [exact Ht |]. by rewrite H3.
Defined.

Lemma resolve_vertex_Document (g : list string) (msg : string) (x : vertex) (st : St) :
  is_Document x = true ->
  resolve_vertex g msg x st = (Ok (vertex_id x), st).
Proof.
  destruct x as [v|o]; simpl; [done |]. intros H. by rewrite H.
Qed.

Lemma resolve_vertex_other (msg : string) (x : vertex) (st : St) :
  is_Document x = false ->
  resolve_vertex module_globals msg x st = (Raise (NameError "types"), st).
Proof.
  destruct x as [v|o]; simpl; [done |]. by intros ->.
Qed.

(** X16.  Past the first-save test, [Edge.save] takes as an endpoint only
    an instance of exactly [Document]: given anything else, a string
    identifier or an edge included, it raises [NameError], the module
    binding no name [types]; nothing is sent and the edge is as before. *)
Theorem Edge_save_needs_Documents
  (server : list Request -> Request -> Response)
  (d : Doc) (log : list Request) (f t : vertex) (edgeArgs : dict) :
  URL d <> None \/ (vertex_is_None f = false /\ vertex_is_None t = false) ->
  is_Document f && is_Document t = false ->
  Edge_save server f t edgeArgs {| self := d; sent := log |}
  = (Raise (NameError "types"), {| self := d; sent := log |}).
Proof.
  intros Hg Hd. unfold Edge_save, bind at 1, get at 1. cbn [self].
  assert (G : bool_decide (URL d = None)
              && (vertex_is_None f || vertex_is_None t) = false).
  { destruct Hg as [HU | [-> ->]].
    - by rewrite bool_decide_eq_false_2.
    - apply andb_false_r. }
  rewrite G. unfold bind at 1.
  destruct (is_Document f) eqn:Hf.
  - rewrite (resolve_vertex_Document _ _ _ _ Hf). unfold bind at 1.
    simpl in Hd. by rewrite (resolve_vertex_other _ _ _ Hd).
  - by rewrite (resolve_vertex_other _ _ _ Hf).
Qed.

Lemma Edge_save_needs_Documents_witness :
  Edge_save accepting (VtxVal (VStr "users/1")) (VtxVal (VStr "users/2")) ∅
            {| self := unsaved_edge; sent := [] |}
  = (Raise (NameError "types"), {| self := unsaved_edge; sent := [] |}).
Proof.
  apply (Edge_save_needs_Documents accepting unsaved_edge []).
  - right. by split.
  - reflexivity.
Defined.

Lemma Edge_save_Documents
  (server : list Request -> Request -> Response)
  (d : Doc) (log : list Request) (f t : vertex) (edgeArgs : dict) :
  is_Document f = true -> is_Document t = true ->
  Edge_save server f t edgeArgs {| self := d; sent := log |}
  = Document_save server
      (<["to" := vertex_id t]> (<["from" := vertex_id f]> edgeArgs))
      {| self := with_to (vertex_id t) (with_from (vertex_id f) d); sent := log |}.
Proof.
  intros Hf Ht. unfold Edge_save, bind at 1, get at 1. cbn [self].
  assert (G : bool_decide (URL d = None)
              && (vertex_is_None f || vertex_is_None t) = false).
  { destruct f as [|o], t as [|o']; try done. simpl. apply andb_false_r. }
  rewrite G. unfold bind at 1. rewrite (resolve_vertex_Document _ _ _ _ Hf).
  unfold bind at 1. rewrite (resolve_vertex_Document _ _ _ _ Ht).
  reflexivity.
Qed.

(** X17.  [Edge.save] with two instances of [Document] as endpoints, on a
    modified edge: the request is the one [save] sends, a POST to the
    collection or a PUT to the URL with the store as payload, and the ids of
    the two endpoints travel as its parameters [from] and [to]; the id of
    an endpoint that was never saved is [None].  (The collection does not
    validate on save.) *)
Theorem Edge_save_sends_endpoints
  (server : list Request -> Request -> Response)
  (d : Doc) (log : list Request) (f t : vertex) (edgeArgs : dict) :
  is_Document f = true -> is_Document t = true ->
  modified d = true ->
  on_save (_validation (collection d)) = false ->
  let args := <["to" := vertex_id t]> (<["from" := vertex_id f]> edgeArgs) in
  sent (Edge_save server f t edgeArgs {| self := d; sent := log |}).2
  = (log ++ [save_request d args])%list
  /\ params (save_request d args)
     = Some (<["collection" := VStr (col_name (collection d))]> args).
Proof.
  intros Hf Ht Hm Hon args. split.
  - rewrite (Edge_save_Documents server d log f t edgeArgs Hf Ht). fold args.
    by rewrite (Document_save_log server _ log args).
  - unfold save_request. by destruct (URL d).
Qed.

Lemma Edge_save_sends_endpoints_witness :
  sent (Edge_save accepting vertex_a vertex_b ∅
          {| self := unsaved_edge; sent := [] |}).2
  = [ {| meth := POST; url := "http://localhost:8529/_api/edge";
         params := Some (<["collection" := VStr "friendships"]>
                           (<["to" := VNone]> (<["from" := VStr "users/1"]> ∅)));
         data := Some ∅ |} ].
Proof.
  exact (proj1 (Edge_save_sends_endpoints accepting unsaved_edge []
                  vertex_a vertex_b ∅ eq_refl eq_refl eq_refl eq_refl)).
Defined.



(** X19.  [links] on an edge that was never saved, given a plain value, a
    string identifier for one, as its first vertex: looking up [save] on
    that value raises, an [AttributeError] of the interpreter, and nothing
    has been saved or changed. *)
Theorem links_needs_objects
  (server : list Request -> Request -> Response)
  (w : World) (l : loc) (e : Doc) (v : value)
  (toVertice : pyobj) (edgeArgs : dict) :
  heap w !! l = Some e ->
  URL e = None ->
  Edge_links server l (PVal v) toVertice edgeArgs w
  = (Raise (NoAttribute v "save"), w).
Proof.
  intros Hl HU. unfold Edge_links. rewrite Hl.
  rewrite bool_decide_eq_false_2; [done |]. intros H. by apply H.
Qed.

Lemma links_needs_objects_witness :
  let w := {| heap := <[0%nat := unsaved_edge]> (heap small_world); wire := [] |} in
  Edge_links accepting 0%nat (PVal (VStr "users/1")) (PRef 2%nat) ∅ w
  = (Raise (NoAttribute (VStr "users/1") "save"), w).
Proof.
  intros w. apply (links_needs_objects accepting w 0%nat unsaved_edge).
  - by vm_compute.
  - reflexivity.
Defined.

(** ** set on a document that has an identity *)

Lemma keeps_detached_setitem k v :
  keeps (on_self detached) (Document___setitem__ k v).
Proof.
  intros [d log] H. unfold on_self, detached in *. simpl in H.
  destruct (setitem_cases d k v) as [Hacc | (e & Hon & Hv)].
  - rewrite (setitem_accepted _ _ _ _ Hacc).
    destruct H as (H1 & H2 & H3 & H4). rewrite H4. by simpl.
  - by rewrite (setitem_refused _ _ _ _ _ Hon Hv).
Qed.

(** X20.  [set] with a dictionary that lacks one of [_id], [_rev] and
    [_key] leaves the document without identity, whatever identity it had
    and whether or not the assignment of the fields goes through: id,
    revision and key are [None] and the URL is unset. *)
Theorem set_without_identity_detaches {order : KeyOrder}
  (fieldDict : dict) (d : Doc) (log : list Request) :
  fieldDict !! "_id" = None \/ fieldDict !! "_rev" = None
  \/ fieldDict !! "_key" = None ->
  detached (self (Document_set fieldDict {| self := d; sent := log |}).2).
Proof.
  intros Hmiss. unfold Document_set. cbn [self sent].
  assert (Hd : on_self detached {| self := (setPrivates fieldDict d).2; sent := log |}).
  { unfold on_self, detached, setPrivates, Edge_setPrivates. simpl.
    destruct (cls d); by apply Document_setPrivates_missing. }
  destruct (setPrivates fieldDict d) as [fd' d']. simpl in Hd.
  match goal with
  | |- context [ (if ?b then ?m1 else ?m2) ?s0 ] =>
      assert (Hk : keeps (on_self detached) (if b then m1 else m2));
      [| specialize (Hk s0 Hd); destruct ((if b then m1 else m2) s0); exact Hk ]
  end.
  apply keeps_if.
  - apply keeps_for_each. intros k.
    apply keeps_bind; [apply keeps_getitem | intros v; apply keeps_detached_setitem].
  - apply keeps_self_upd. by intros d0.
Qed.

Lemma set_without_identity_detaches_witness :
  URL saved_user = Some "http://localhost:8529/_api/document/users/1"
  /\ URL (self (Document_set {[ "name" := VStr "b" ]}
                  {| self := saved_user; sent := [] |}).2) = None.
Proof.
  split; [reflexivity |].
  apply (set_without_identity_detaches {[ "name" := VStr "b" ]} saved_user []).
  left. by vm_compute.
Defined.
